(** * AmazonBedrockConverseGenerator: capability-gated request pipeline

    A shallow embedding of [converse_generator.py].  Python objects that the
    generator only passes around (request dictionaries, transport responses,
    configuration values) are values of a small JSON-like type; the caller's
    [ConverseMessage] objects live in a store indexed by location, because
    [run] rewrites their content lists in place; log records and transport
    invocations are accumulated in the same state, so that theorems can speak
    about what was logged and what was sent. *)

From Stdlib Require Import Ascii.
From stdpp Require Import base gmap list strings.

Local Open Scope string_scope.
Local Open Scope list_scope.

(** ** Python values *)

#[warnings="-register-all"]
Inductive value : Type :=
| VNone
| VBool (b : bool)
| VInt (n : Z)
| VStr (s : string)
| VList (xs : list value)
| VDict (kvs : list (string * value))
| VObj (cls : string) (attrs : list (string * value)).

(** A [dict] keeps its keys in insertion order. *)
Abbreviation dict := (list (string * value)).

(** Python truthiness: [None], [False], [0], and the empty string, list and
    dictionary are falsy; an instance of a plain class is truthy. *)
Definition truthy (v : value) : bool :=
  match v with
  | VNone => false
  | VBool b => b
  | VInt n => negb (n =? 0)%Z
  | VStr s => negb (String.eqb s "")
  | VList xs => negb (bool_decide (xs = []))
  | VDict kvs => negb (bool_decide (kvs = []))
  | VObj _ _ => true
  end.

(** [a or b] *)
Definition py_or (a b : value) : value := if truthy a then a else b.

(** [d.get(k)]: the first binding of [k], [None] when there is none. *)
Fixpoint dict_get (d : dict) (k : string) : value :=
  match d with
  | [] => VNone
  | (k', v) :: d' => if String.eqb k' k then v else dict_get d' k
  end.

(** [k in d] *)
Definition dict_mem (d : dict) (k : string) : bool :=
  existsb (λ kv, String.eqb kv.1 k) d.

(** [d[k] = v]: overwrite the binding in place, or append a new one. *)
Fixpoint dict_set (d : dict) (k : string) (v : value) : dict :=
  match d with
  | [] => [(k, v)]
  | (k', v') :: d' => if String.eqb k' k then (k', v) :: d' else (k', v') :: dict_set d' k v
  end.

Definition dict_keys (d : dict) : list string := d.*1.

(** ** Exceptions *)

Inductive Exc : Type :=
| ValueError (msg : string)
| KeyError (msg : string)
| AttributeError (msg : string)
| ClientError (msg : string)
| OtherError (cls msg : string)
| AmazonBedrockInferenceError (msg : string) (cause : Exc)
| AmazonBedrockConfigurationError (msg : string) (cause : Exc).

(** [str(exception)] *)
Definition exc_str (e : Exc) : string :=
  match e with
  | ValueError m | KeyError m | AttributeError m | ClientError m | OtherError _ m
  | AmazonBedrockInferenceError m _ | AmazonBedrockConfigurationError m _ => m
  end.

(** [isinstance(e, ClientError)], the test of the [except ClientError] clause.
    Connection failures and timeouts of botocore are not [ClientError]s; they
    are [OtherError]s here. *)
Definition is_ClientError (e : Exc) : bool :=
  match e with ClientError _ => true | _ => false end.

Inductive outcome (A : Type) : Type :=
| Return (a : A)
| Raise (e : Exc).
Arguments Return {A} a.
Arguments Raise {A} e.

Global Instance outcome_ret : MRet outcome := λ A a, Return a.
Global Instance outcome_bind : MBind outcome := λ A B f m,
  match m with Return a => f a | Raise e => Raise e end.

(** [try: body except Exception as e: handler(e)] *)
Definition try_except {A} (body : outcome A) (handler : Exc → outcome A) : outcome A :=
  match body with Return a => Return a | Raise e => handler e end.

(** ** Capabilities *)

(** Modelled from the spec: the enumeration of the [capabilities] module,
    which is not among the sources.  These are the seven tags of the data
    model, each of which [run] tests. *)
Inductive ModelCapability : Type :=
| SYSTEM_PROMPTS | VISION | DOCUMENT_CHAT | TOOL_USE
| STREAMING_TOOL_USE | CONVERSE_STREAM | GUARDRAILS.

Global Instance ModelCapability_eq_dec : EqDecision ModelCapability.
Proof. solve_decision. Defined.

Definition ModelCapability_to_nat (c : ModelCapability) : nat :=
  match c with
  | SYSTEM_PROMPTS => 0 | VISION => 1 | DOCUMENT_CHAT => 2 | TOOL_USE => 3
  | STREAMING_TOOL_USE => 4 | CONVERSE_STREAM => 5 | GUARDRAILS => 6
  end.

Definition ModelCapability_of_nat (n : nat) : ModelCapability :=
  match n with
  | 0 => SYSTEM_PROMPTS | 1 => VISION | 2 => DOCUMENT_CHAT | 3 => TOOL_USE
  | 4 => STREAMING_TOOL_USE | 5 => CONVERSE_STREAM | _ => GUARDRAILS
  end.

Global Instance ModelCapability_countable : Countable ModelCapability.
Proof.
  apply (inj_countable' ModelCapability_to_nat ModelCapability_of_nat).
  by intros [].
Defined.

(** [c in caps] / [c not in caps] *)
Definition has (caps : gset ModelCapability) (c : ModelCapability) : bool :=
  bool_decide (c ∈ caps).

(** ** Conversation messages *)

(** Modelled from the spec: the message types of the [utils] module, which is
    not among the sources.  A message has a role and an ordered sequence of
    content blocks, a block being a text, an image, a document, a tool use or
    a tool result. *)
Inductive ConverseRole : Type := USER | ASSISTANT | SYSTEM.

(** The items of [msg.content.content].  [run] tells [ImageBlock] items from
    all the others; the others carry their payload as a value. *)
Inductive ContentItem : Type :=
| TextItem (text : string)
| ImageBlock (image : value)
| DocumentBlock (document : value)
| ToolUseBlock (tool_use : value)
| ToolResultBlock (tool_result : value).

(** [isinstance(item, ImageBlock)] *)
Definition is_ImageBlock (item : ContentItem) : bool :=
  match item with ImageBlock _ => true | _ => false end.

Record ConverseMessage : Type := {
  role : ConverseRole;
  content : list ContentItem
}.

(** Streaming callbacks are functions known by their qualified name. *)
Record Callback : Type := { callback_name : string }.

(** ** The state [run] acts on *)

Abbreviation loc := nat.

Inductive TransportOp : Type := Converse | ConverseStream.

Inductive Warning : Type :=
| NoSystemPrompts (model : string)
| NoVision (model : string)
| NoDocumentChat (model : string)
| NoTools (model : string)
| NoStreamingToolUse (model : string).

(** The text handed to [logger.warning]. *)
Definition warning_text (w : Warning) : string :=
  match w with
  | NoSystemPrompts m =>
      "The model " +:+ m +:+ " does not support system prompts. The provided system_prompt will be ignored."
  | NoVision m =>
      "The model " +:+ m +:+ " does not support vision. Image content has been removed."
  | NoDocumentChat m =>
      "The model " +:+ m +:+ " does not support document chat. This feature will not be available."
  | NoTools m =>
      "The model " +:+ m +:+ " does not support tools. The provided tool_config will be ignored."
  | NoStreamingToolUse m =>
      "The model " +:+ m +:+ " does not support streaming tool use. Streaming will be disabled for tool calls."
  end.

(** [heap] holds the live [ConverseMessage] objects: a location outside it
    refers to an object of some other class.  [log] is what [logger.warning]
    received, [calls] the transport operations invoked, oldest first. *)
Record World : Type := {
  heap : gmap loc ConverseMessage;
  log : list Warning;
  calls : list (TransportOp * dict)
}.

Definition M (A : Type) : Type := World → outcome A * World.

Global Instance M_ret : MRet M := λ A a w, (Return a, w).
Global Instance M_bind : MBind M := λ A B f m w,
  match m w with
  | (Return a, w') => f a w'
  | (Raise e, w') => (Raise e, w')
  end.
Definition raise {A} (e : Exc) : M A := λ w, (Raise e, w).
Definition lift {A} (o : outcome A) : M A := λ w, (o, w).
Definition gets {A} (f : World → A) : M A := λ w, (Return (f w), w).

(** [try: body except ClientError as e: handler(e)]: any other exception
    class passes through. *)
Definition try_except_ClientError {A} (body : M A) (handler : Exc → M A) : M A := λ w,
  match body w with
  | (Return a, w') => (Return a, w')
  | (Raise e, w') => if is_ClientError e then handler e w' else (Raise e, w')
  end.

(** [logger.warning(...)] *)
Definition warning (x : Warning) : M unit := λ w,
  (Return (), {| heap := heap w; log := log w ++ [x]; calls := calls w |}).

(** [when b: body] *)
Definition when (b : bool) (body : M unit) : M unit := if b then body else mret ().

(** ** Secrets ([haystack.utils.auth]) *)

Inductive Secret : Type :=
| TokenSecret (token : string)
| EnvVarSecret (env_vars : list string) (strict : bool).

(** [Secret.from_env_var(names, strict=...)] *)
Definition from_env_var (names : list string) (strict : bool) : Secret :=
  EnvVarSecret names strict.

(** [secret.to_dict()]: only a reference to environment variables can be
    written out; a token refuses. *)
Definition Secret_to_dict (s : Secret) : outcome value :=
  match s with
  | TokenSecret _ =>
      Raise (ValueError
        "Cannot serialize token-based secret. Use an alternative secret type like environment variables.")
  | EnvVarSecret names strict =>
      Return (VDict [("type", VStr "env_var");
                     ("env_vars", VList (VStr <$> names));
                     ("strict", VBool strict)])
  end.

Fixpoint strings_of (vs : list value) : option (list string) :=
  match vs with
  | [] => Some []
  | VStr s :: vs' => cons s <$> strings_of vs'
  | _ => None
  end.

(** [Secret.from_dict(d)] *)
Definition Secret_from_dict (v : value) : outcome Secret :=
  match v with
  | VDict d =>
      match dict_get d "type", dict_get d "env_vars", dict_get d "strict" with
      | VStr "env_var", VList vs, VBool strict =>
          match strings_of vs with
          | Some names => Return (EnvVarSecret names strict)
          | None => Raise (ValueError "Malformed secret")
          end
      | _, _, _ => Raise (ValueError "Malformed secret")
      end
  | _ => Raise (ValueError "Malformed secret")
  end.

(** [secret.resolve_value()] in the environment [getenv]: the first variable
    that is set; when none is, an error if the secret is strict and [None]
    otherwise. *)
Definition resolve_value (getenv : string → option string) (s : Secret)
  : outcome (option string) :=
  match s with
  | TokenSecret t => Return (Some t)
  | EnvVarSecret names strict =>
      match omap getenv names with
      | x :: _ => Return (Some x)
      | [] =>
          if strict
          then Raise (ValueError "None of the following authentication environment variables are set")
          else Return None
      end
  end.

(** ** The transport client and the generator *)

Record Client : Type := {
  converse : dict → outcome dict;
  converse_stream : dict → outcome dict
}.

Record Session : Type := {
  session_client : string → outcome Client
}.

Record AmazonBedrockConverseGenerator : Type := {
  model : string;
  aws_access_key_id : option Secret;
  aws_secret_access_key : option Secret;
  aws_session_token : option Secret;
  aws_region_name : option Secret;
  aws_profile_name : option Secret;
  client : Client;
  inference_config : value;
  tool_config : value;
  streaming_callback : option Callback;
  system_prompt : value;
  model_capabilities : gset ModelCapability
}.

(** What the module imports and this file does not define: the capability
    table of [capabilities], Python's [re.match], the process environment,
    [get_aws_session], the message codec and [get_stream_message] of
    [utils], and haystack's [deserialize_callable]. *)
Record Externals : Type := {
  MODEL_CAPABILITIES : list (string * gset ModelCapability);
  re_match : string → string → bool;
  getenv : string → option string;
  get_aws_session :
    option string → option string → option string → option string → option string →
    outcome Session;
  ConverseMessage_to_dict : ConverseMessage → value;
  ConverseMessage_from_dict : value → outcome ConverseMessage;
  get_stream_message : value → Callback → outcome (ConverseMessage * dict);
  deserialize_callable : string → outcome Callback
}.

(** The [messages] argument of [run]: a list of object references, or
    something that is not a list. *)
Inductive MessagesArg : Type :=
| ListArg (refs : list loc)
| NotAList.

Record InvocationResult : Type := {
  message : ConverseMessage;
  usage : value;
  metrics : value;
  guardrail_trace : value;
  stop_reason : value
}.

(** ** Primitive actions *)

(** One invocation of a transport operation, recorded in [calls]. *)
Definition call (op : TransportOp) (f : dict → outcome dict) (request : dict) : M dict := λ w,
  (f request, {| heap := heap w; log := log w; calls := calls w ++ [(op, request)] |}).

(** [msg.content.content = new(msg.content.content)] on the object at [l]. *)
Definition set_content (l : loc) (new : list ContentItem → list ContentItem) : M unit := λ w,
  (Return (),
   {| heap := alter (λ msg, {| role := role msg; content := new (content msg) |}) l (heap w);
      log := log w; calls := calls w |}).

(** [for x in xs: body(x)] *)
Fixpoint for_each {A} (xs : list A) (body : A → M unit) : M unit :=
  match xs with
  | [] => mret ()
  | x :: xs' => body x;; for_each xs' body
  end.

(** [[item for item in items if not isinstance(item, ImageBlock)]] *)
Definition without_images (items : list ContentItem) : list ContentItem :=
  List.filter (λ item, negb (is_ImageBlock item)) items.

(** [any(isinstance(item, ImageBlock) for msg in messages for item in msg.content.content)] *)
Definition any_image (h : gmap loc ConverseMessage) (messages : list loc) : bool :=
  existsb (λ l, from_option (λ msg, existsb is_ImageBlock (content msg)) false (h !! l)) messages.

(** [[message.to_dict() for message in messages]] *)
Definition to_dicts (to_dict : ConverseMessage → value)
    (h : gmap loc ConverseMessage) (messages : list loc) : list value :=
  omap (λ l, to_dict <$> h !! l) messages.

Definition isinstance_list (a : MessagesArg) : bool :=
  match a with ListArg _ => true | NotAList => false end.

Definition elements (a : MessagesArg) : list loc :=
  match a with ListArg refs => refs | NotAList => [] end.

(** [isinstance(message, ConverseMessage)] *)
Definition isinstance_ConverseMessage (h : gmap loc ConverseMessage) (l : loc) : bool :=
  bool_decide (is_Some (h !! l)).

(** The condition of lines 166-170, before its negation. *)
Definition valid_messages (h : gmap loc ConverseMessage) (messages : MessagesArg) : bool :=
  isinstance_list messages
  && bool_decide (0 < length (elements messages))
  && forallb (isinstance_ConverseMessage h) (elements messages).

Definition is_None (v : value) : bool :=
  match v with VNone => true | _ => false end.

(** [a or b] on optional callables: a callable is truthy. *)
Definition callback_or (a b : option Callback) : option Callback :=
  match a with Some _ => a | None => b end.

Section Generator.
Context (X : Externals).

(** *** [_get_model_capabilities] *)
Fixpoint first_match (table : list (string * gset ModelCapability)) (name : string)
  : option (gset ModelCapability) :=
  match table with
  | [] => None
  | (pattern, capabilities) :: table' =>
      if re_match X pattern name then Some capabilities else first_match table' name
  end.

Definition _get_model_capabilities (name : string) : outcome (gset ModelCapability) :=
  match first_match (MODEL_CAPABILITIES X) name with
  | Some capabilities => Return capabilities
  | None => Raise (ValueError ("Unsupported model: " +:+ name))
  end.

(** *** [__init__] *)
Definition resolve_secret (secret : option Secret) : outcome (option string) :=
  match secret with
  | Some s => resolve_value (getenv X) s
  | None => Return None
  end.

Definition connect_msg : string :=
  "Could not connect to Amazon Bedrock. Make sure the AWS environment is configured correctly. "
  +:+ "See https://boto3.amazonaws.com/v1/documentation/api/latest/guide/quickstart.html#configuration".

Definition __init__ (model : string)
    (aws_access_key_id aws_secret_access_key aws_session_token
     aws_region_name aws_profile_name : option Secret)
    (inference_config tool_config : value)
    (streaming_callback : option Callback)
    (system_prompt : value) : outcome AmazonBedrockConverseGenerator :=
  if String.eqb model "" then Raise (ValueError "'model' cannot be None or empty string")
  else
    try_except
      (key_id ← resolve_secret aws_access_key_id;
       secret_key ← resolve_secret aws_secret_access_key;
       token ← resolve_secret aws_session_token;
       region ← resolve_secret aws_region_name;
       profile ← resolve_secret aws_profile_name;
       session ← get_aws_session X key_id secret_key token region profile;
       client ← session_client session "bedrock-runtime";
       capabilities ← _get_model_capabilities model;
       mret {| model := model;
               aws_access_key_id := aws_access_key_id;
               aws_secret_access_key := aws_secret_access_key;
               aws_session_token := aws_session_token;
               aws_region_name := aws_region_name;
               aws_profile_name := aws_profile_name;
               client := client;
               inference_config := inference_config;
               tool_config := tool_config;
               streaming_callback := streaming_callback;
               system_prompt := system_prompt;
               model_capabilities := capabilities |})
      (λ exception, Raise (AmazonBedrockConfigurationError connect_msg exception)).

(** *** [run], lines 163-208: validation, capability filtering and the
    request.  The result is the callback in effect and [request_kwargs]. *)
Definition prepare (self : AmazonBedrockConverseGenerator)
    (messages : MessagesArg) (streaming_callback0 : option Callback)
    (inference_config0 tool_config0 system_prompt0 : value)
  : M (option Callback * dict) :=
  let caps := model_capabilities self in
  let streaming_callback := callback_or streaming_callback0 (streaming_callback self) in
  let system_prompt := py_or system_prompt0 (system_prompt self) in
  valid ← gets (λ w, valid_messages (heap w) messages);
  if negb valid then
    raise (ValueError
      ("The model " +:+ model self +:+ " requires a list of ConverseMessage objects as input."))
  else
    let messages := elements messages in
    system_prompt ←
      (if negb (has caps SYSTEM_PROMPTS) && truthy system_prompt
       then warning (NoSystemPrompts (model self));; mret VNone
       else mret system_prompt);
    when (negb (has caps VISION))
      (for_each messages (λ msg, set_content msg without_images);;
       images ← gets (λ w, any_image (heap w) messages);
       when images (warning (NoVision (model self))));;
    when (negb (has caps DOCUMENT_CHAT)) (warning (NoDocumentChat (model self)));;
    tool_config ←
      (if negb (has caps TOOL_USE) && truthy tool_config0
       then warning (NoTools (model self));; mret VNone
       else mret tool_config0);
    when (negb (has caps STREAMING_TOOL_USE) && bool_decide (is_Some streaming_callback)
          && truthy tool_config)
      (warning (NoStreamingToolUse (model self)));;
    dicts ← gets (λ w, to_dicts (ConverseMessage_to_dict X) (heap w) messages);
    let request_kwargs :=
      [("modelId", VStr (model self));
       ("inferenceConfig", inference_config0);
       ("messages", VList dicts)] in
    let request_kwargs :=
      if truthy tool_config then dict_set request_kwargs "toolConfig" tool_config
      else request_kwargs in
    mret (streaming_callback, request_kwargs).

(** Which transport operation line 211 selects. *)
Definition selected (self : AmazonBedrockConverseGenerator)
    (streaming_callback : option Callback) : TransportOp :=
  if bool_decide (is_Some streaming_callback) && has (model_capabilities self) CONVERSE_STREAM
  then ConverseStream else Converse.

(** Lines 212-214. *)
Definition streaming_path (self : AmazonBedrockConverseGenerator)
    (streaming_callback : Callback) (request_kwargs : dict) : M (ConverseMessage * dict) :=
  response ← call ConverseStream (converse_stream (client self)) request_kwargs;
  let response_stream := dict_get response "stream" in
  lift (get_stream_message X response_stream streaming_callback).

(** Lines 216-224. *)
Definition buffered_path (self : AmazonBedrockConverseGenerator)
    (request_kwargs : dict) : M (ConverseMessage * dict) :=
  response ← call Converse (converse (client self)) request_kwargs;
  match dict_get response "output" with
  | VNone => raise (KeyError "Response does not contain 'output'")
  | VDict output =>
      let message := dict_get output "message" in
      if is_None message then raise (KeyError "Response 'output' does not contain 'message'")
      else
        message ← lift (ConverseMessage_from_dict X message);
        mret (message, response)
  | _ => raise (AttributeError "object has no attribute 'get'")
  end.

Definition inference_msg (self : AmazonBedrockConverseGenerator) (exception : Exc) : string :=
  "Could not run inference on Amazon Bedrock model " +:+ model self
  +:+ " due to: " +:+ exc_str exception.

(** Lines 226-234. *)
Definition normalize (self : AmazonBedrockConverseGenerator)
    (message : ConverseMessage) (metadata : dict) : InvocationResult :=
  {| message := message;
     usage := dict_get metadata "usage";
     metrics := dict_get metadata "metrics";
     guardrail_trace :=
       if has (model_capabilities self) GUARDRAILS then dict_get metadata "trace" else VNone;
     stop_reason := dict_get metadata "stopReason" |}.

(** Lines 211-224: the branch taken, and the message and metadata it yields. *)
Definition invoke (self : AmazonBedrockConverseGenerator)
    (streaming_callback : option Callback) (request_kwargs : dict)
  : M (ConverseMessage * dict) :=
  match streaming_callback with
  | Some callback =>
      if has (model_capabilities self) CONVERSE_STREAM
      then streaming_path self callback request_kwargs
      else buffered_path self request_kwargs
  | None => buffered_path self request_kwargs
  end.

(** *** [run], lines 210-238: dispatch, normalisation, error translation. *)
Definition dispatch (self : AmazonBedrockConverseGenerator)
    (streaming_callback : option Callback) (request_kwargs : dict) : M InvocationResult :=
  try_except_ClientError
    ('(message, metadata) ← invoke self streaming_callback request_kwargs;
     mret (normalize self message metadata))
    (λ exception,
       raise (AmazonBedrockInferenceError (inference_msg self exception) exception)).

Definition run (self : AmazonBedrockConverseGenerator)
    (messages : MessagesArg) (streaming_callback0 : option Callback)
    (inference_config0 tool_config0 system_prompt0 : value) : M InvocationResult :=
  '(streaming_callback, request_kwargs) ←
    prepare self messages streaming_callback0 inference_config0 tool_config0 system_prompt0;
  dispatch self streaming_callback request_kwargs.

End Generator.

(** ** Serialization *)

(** Keyword arguments once [from_dict] has put callables and secrets back in
    place of their serialized forms. *)
Inductive Param : Type :=
| PValue (v : value)
| PSecret (s : Secret)
| PCallable (c : Callback).

Abbreviation kwargs := (list (string * Param)).

Fixpoint kwargs_get (params : kwargs) (k : string) : option Param :=
  match params with
  | [] => None
  | (k', p) :: params' => if String.eqb k' k then Some p else kwargs_get params' k
  end.

Fixpoint kwargs_set (params : kwargs) (k : string) (p : Param) : kwargs :=
  match params with
  | [] => [(k, p)]
  | (k', p') :: params' =>
      if String.eqb k' k then (k', p) :: params' else (k', p') :: kwargs_set params' k p
  end.

(** haystack's [serialize_callable] on a function that can be imported under
    its qualified name, which is what a [Callback] stands for: that name.  A
    lambda, a nested function or a method, for which the library raises, is
    not a [Callback]: the statements about [to_dict] are about callbacks that
    the library can serialize, and none concludes that [to_dict] succeeds
    for every generator. *)
Definition serialize_callable (c : Callback) : string := callback_name c.

(** The qualified name [default_to_dict] records under ["type"]. *)
Definition class_name : string :=
  "haystack_integrations.components.generators.amazon_bedrock.converse.converse_generator."
  +:+ "AmazonBedrockConverseGenerator".

(** haystack's [default_to_dict(obj, **init_parameters)] *)
Definition default_to_dict (init_parameters : dict) : dict :=
  [("type", VStr class_name); ("init_parameters", VDict init_parameters)].

(** [secret.to_dict() if secret else None] *)
Definition secret_to_dict_or_None (secret : option Secret) : outcome value :=
  match secret with
  | Some s => Secret_to_dict s
  | None => Return VNone
  end.

Definition to_dict (self : AmazonBedrockConverseGenerator) : outcome dict :=
  let callback_name :=
    match streaming_callback self with
    | Some c => VStr (serialize_callable c)
    | None => VNone
    end in
  key_id ← secret_to_dict_or_None (aws_access_key_id self);
  secret_key ← secret_to_dict_or_None (aws_secret_access_key self);
  token ← secret_to_dict_or_None (aws_session_token self);
  region ← secret_to_dict_or_None (aws_region_name self);
  profile ← secret_to_dict_or_None (aws_profile_name self);
  mret (default_to_dict
          [("aws_access_key_id", key_id);
           ("aws_secret_access_key", secret_key);
           ("aws_session_token", token);
           ("aws_region_name", region);
           ("aws_profile_name", profile);
           ("model", VStr (model self));
           ("streaming_callback", callback_name)]).

(** haystack's [deserialize_secrets_inplace(data, keys)] *)
Fixpoint deserialize_secrets_inplace (data : kwargs) (keys : list string) : outcome kwargs :=
  match keys with
  | [] => Return data
  | key :: keys' =>
      match kwargs_get data key with
      | None | Some (PValue VNone) => deserialize_secrets_inplace data keys'
      | Some (PValue v) =>
          s ← Secret_from_dict v;
          deserialize_secrets_inplace (kwargs_set data key (PSecret s)) keys'
      | Some _ => Raise (ValueError "Malformed secret")
      end
  end.

Definition secret_keys : list string :=
  ["aws_access_key_id"; "aws_secret_access_key"; "aws_session_token";
   "aws_region_name"; "aws_profile_name"].

Definition parameter_names : list string :=
  "model" :: secret_keys
  ++ ["inference_config"; "tool_config"; "streaming_callback"; "system_prompt"].

Definition TypeError (msg : string) : Exc := OtherError "TypeError" msg.
Definition DeserializationError (msg : string) : Exc := OtherError "DeserializationError" msg.

(** The value a keyword argument of class [Optional[Secret]] takes: the
    declared default when the keyword is absent. *)
Definition secret_kwarg (params : kwargs) (k env_var : string) : outcome (option Secret) :=
  match kwargs_get params k with
  | None => Return (Some (from_env_var [env_var] false))
  | Some (PValue VNone) => Return None
  | Some (PSecret s) => Return (Some s)
  | Some _ => Raise (TypeError k)
  end.

(** A keyword argument whose default is [None] and which is stored as is. *)
Definition value_kwarg (params : kwargs) (k : string) : outcome value :=
  match kwargs_get params k with
  | None => Return VNone
  | Some (PValue v) => Return v
  | Some _ => Raise (TypeError k)
  end.

Definition callback_kwarg (params : kwargs) : outcome (option Callback) :=
  match kwargs_get params "streaming_callback" with
  | None | Some (PValue VNone) => Return None
  | Some (PCallable c) => Return (Some c)
  | Some _ => Raise (TypeError "streaming_callback")
  end.

Section Serialization.
Context (X : Externals).

(** The call of [cls] with [init_params] as keyword arguments: [model] is
    required and no other keyword than the constructor's parameters is
    accepted.  Arguments of the wrong class are rejected at the call, where
    Python would fail on their first use. *)
Definition construct (init_params : kwargs) : outcome AmazonBedrockConverseGenerator :=
  if negb (forallb (λ kp, bool_decide (kp.1 ∈ parameter_names)) init_params)
  then Raise (TypeError "__init__() got an unexpected keyword argument")
  else
    match kwargs_get init_params "model" with
    | Some (PValue (VStr name)) =>
        key_id ← secret_kwarg init_params "aws_access_key_id" "AWS_ACCESS_KEY_ID";
        secret_key ← secret_kwarg init_params "aws_secret_access_key" "AWS_SECRET_ACCESS_KEY";
        token ← secret_kwarg init_params "aws_session_token" "AWS_SESSION_TOKEN";
        region ← secret_kwarg init_params "aws_region_name" "AWS_DEFAULT_REGION";
        profile ← secret_kwarg init_params "aws_profile_name" "AWS_PROFILE";
        inference ← value_kwarg init_params "inference_config";
        tools ← value_kwarg init_params "tool_config";
        callback ← callback_kwarg init_params;
        prompt ← value_kwarg init_params "system_prompt";
        __init__ X name key_id secret_key token region profile inference tools callback prompt
    | _ => Raise (TypeError "__init__() missing 1 required positional argument: 'model'")
    end.

(** haystack's [default_from_dict(cls, data)], on [data] with its
    ["init_parameters"] already deserialized. *)
Definition default_from_dict (data : dict) (init_params : kwargs)
  : outcome AmazonBedrockConverseGenerator :=
  if negb (dict_mem data "type")
  then Raise (DeserializationError "Missing 'type' in serialization data")
  else
    match dict_get data "type" with
    | VStr t =>
        if String.eqb t class_name then construct init_params
        else Raise (DeserializationError "Class can't be deserialized")
    | _ => Raise (DeserializationError "Class can't be deserialized")
    end.

Definition from_dict (data : dict) : outcome AmazonBedrockConverseGenerator :=
  init_params ←
    (if dict_mem data "init_parameters" then
       match dict_get data "init_parameters" with
       | VDict d => Return d
       | _ => Raise (AttributeError "object has no attribute 'get'")
       end
     else Return []);
  let serialized_callback_handler := dict_get init_params "streaming_callback" in
  if negb (dict_mem data "init_parameters")
  then Raise (KeyError "init_parameters")
  else
    let params : kwargs := prod_map id PValue <$> init_params in
    params ←
      (if truthy serialized_callback_handler then
         match serialized_callback_handler with
         | VStr name =>
             c ← deserialize_callable X name;
             mret (kwargs_set params "streaming_callback" (PCallable c))
         | _ => Raise (AttributeError "object has no attribute 'split'")
         end
       else Return params);
    params ← deserialize_secrets_inplace params secret_keys;
    default_from_dict data params.

End Serialization.

(** ** Closed forms used in the statements *)

(** The method of the client behind a transport operation. *)
Definition operation (c : Client) (op : TransportOp) : dict → outcome dict :=
  match op with
  | Converse => converse c
  | ConverseStream => converse_stream c
  end.

(** A message without its image blocks. *)
Definition strip (msg : ConverseMessage) : ConverseMessage :=
  {| role := role msg; content := without_images (content msg) |}.

(** The store once the content of every listed message went through
    [without_images]. *)
Definition strip_all (messages : list loc) (h : gmap loc ConverseMessage)
  : gmap loc ConverseMessage :=
  foldl (λ h l, alter strip l h) h messages.

(** The store [run] leaves behind on valid input. *)
Definition prepared_heap (self : AmazonBedrockConverseGenerator)
    (messages : list loc) (h : gmap loc ConverseMessage) : gmap loc ConverseMessage :=
  if has (model_capabilities self) VISION then h else strip_all messages h.

(** The tool configuration after step 4. *)
Definition surviving (self : AmazonBedrockConverseGenerator) (tool_config0 : value) : value :=
  if negb (has (model_capabilities self) TOOL_USE) && truthy tool_config0
  then VNone else tool_config0.

(** The request, field by field. *)
Definition prepared_request (X : Externals) (self : AmazonBedrockConverseGenerator)
    (messages : list loc) (h : gmap loc ConverseMessage)
    (inference_config0 tool_config0 : value) : dict :=
  [("modelId", VStr (model self));
   ("inferenceConfig", inference_config0);
   ("messages", VList (to_dicts (ConverseMessage_to_dict X) (prepared_heap self messages h) messages))]
  ++ (if truthy (surviving self tool_config0)
      then [("toolConfig", surviving self tool_config0)] else []).

(** The warnings of steps 1 to 5, in order, for the system prompt and the
    callback in effect. *)
Definition prepared_warnings (self : AmazonBedrockConverseGenerator)
    (streaming_callback : option Callback) (system_prompt tool_config0 : value)
  : list Warning :=
  let caps := model_capabilities self in
  (if negb (has caps SYSTEM_PROMPTS) && truthy system_prompt
   then [NoSystemPrompts (model self)] else [])
  ++ (if negb (has caps DOCUMENT_CHAT) then [NoDocumentChat (model self)] else [])
  ++ (if negb (has caps TOOL_USE) && truthy tool_config0 then [NoTools (model self)] else [])
  ++ (if negb (has caps STREAMING_TOOL_USE) && bool_decide (is_Some streaming_callback)
         && truthy (surviving self tool_config0)
      then [NoStreamingToolUse (model self)] else []).

(** The same generator with another constructor-level system prompt. *)
Definition with_system_prompt (self : AmazonBedrockConverseGenerator) (p : value)
  : AmazonBedrockConverseGenerator :=
  {| model := model self;
     aws_access_key_id := aws_access_key_id self;
     aws_secret_access_key := aws_secret_access_key self;
     aws_session_token := aws_session_token self;
     aws_region_name := aws_region_name self;
     aws_profile_name := aws_profile_name self;
     client := client self;
     inference_config := inference_config self;
     tool_config := tool_config self;
     streaming_callback := streaming_callback self;
     system_prompt := p;
     model_capabilities := model_capabilities self |}.

(** The same generator with another capability set. *)
Definition with_capabilities (self : AmazonBedrockConverseGenerator)
    (caps : gset ModelCapability) : AmazonBedrockConverseGenerator :=
  {| model := model self;
     aws_access_key_id := aws_access_key_id self;
     aws_secret_access_key := aws_secret_access_key self;
     aws_session_token := aws_session_token self;
     aws_region_name := aws_region_name self;
     aws_profile_name := aws_profile_name self;
     client := client self;
     inference_config := inference_config self;
     tool_config := tool_config self;
     streaming_callback := streaming_callback self;
     system_prompt := system_prompt self;
     model_capabilities := caps |}.

(** The same generator with another constructor-level streaming callback. *)
Definition with_streaming_callback (self : AmazonBedrockConverseGenerator)
    (cb : option Callback) : AmazonBedrockConverseGenerator :=
  {| model := model self;
     aws_access_key_id := aws_access_key_id self;
     aws_secret_access_key := aws_secret_access_key self;
     aws_session_token := aws_session_token self;
     aws_region_name := aws_region_name self;
     aws_profile_name := aws_profile_name self;
     client := client self;
     inference_config := inference_config self;
     tool_config := tool_config self;
     streaming_callback := cb;
     system_prompt := system_prompt self;
     model_capabilities := model_capabilities self |}.

(** The same generator with another constructor-level inference and tool
    configuration. *)
Definition with_configs (self : AmazonBedrockConverseGenerator)
    (ic tc : value) : AmazonBedrockConverseGenerator :=
  {| model := model self;
     aws_access_key_id := aws_access_key_id self;
     aws_secret_access_key := aws_secret_access_key self;
     aws_session_token := aws_session_token self;
     aws_region_name := aws_region_name self;
     aws_profile_name := aws_profile_name self;
     client := client self;
     inference_config := ic;
     tool_config := tc;
     streaming_callback := streaming_callback self;
     system_prompt := system_prompt self;
     model_capabilities := model_capabilities self |}.

(** The five secrets of a generator, in the order of the constructor. *)
Definition secrets (self : AmazonBedrockConverseGenerator) : list (option Secret) :=
  [aws_access_key_id self; aws_secret_access_key self; aws_session_token self;
   aws_region_name self; aws_profile_name self].

(** [isinstance(secret, TokenSecret)] on an optional secret. *)
Definition is_token (secret : option Secret) : bool :=
  match secret with Some (TokenSecret _) => true | _ => false end.

(** What the [except] clause of line 236 makes of an exception. *)
Definition translated (self : AmazonBedrockConverseGenerator) (e : Exc) : Exc :=
  if is_ClientError e then AmazonBedrockInferenceError (inference_msg self e) e else e.

(** The state after one more transport invocation. *)
Definition add_call (w : World) (op : TransportOp) (request : dict) : World :=
  {| heap := heap w; log := log w; calls := calls w ++ [(op, request)] |}.

(** What a run appended to the log. *)
Definition emitted (before after : World) : list Warning :=
  drop (length (log before)) (log after).

(** ** A concrete setting *)

Module Example.

(** A codec for text and image items, enough to run the pipeline. *)
Definition item_to_dict (item : ContentItem) : value :=
  match item with
  | TextItem t => VDict [("text", VStr t)]
  | ImageBlock v => VDict [("image", v)]
  | DocumentBlock v => VDict [("document", v)]
  | ToolUseBlock v => VDict [("toolUse", v)]
  | ToolResultBlock v => VDict [("toolResult", v)]
  end.

Definition message_to_dict (msg : ConverseMessage) : value :=
  VDict [("role", VStr (match role msg with
                        | USER => "user" | ASSISTANT => "assistant" | SYSTEM => "system"
                        end));
         ("content", VList (item_to_dict <$> content msg))].

Definition message_from_dict (v : value) : outcome ConverseMessage :=
  match v with
  | VDict d =>
      match dict_get d "text" with
      | VStr t => Return {| role := ASSISTANT; content := [TextItem t] |}
      | _ => Raise (ValueError "unsupported content")
      end
  | _ => Raise (ValueError "unsupported content")
  end.

(** The response a well-behaved service gives, guardrail trace included. *)
Definition good_response : dict :=
  [("output", VDict [("message", VDict [("text", VStr "Hello")])]);
   ("usage", VDict [("inputTokens", VInt 3); ("outputTokens", VInt 1)]);
   ("metrics", VDict [("latencyMs", VInt 120)]);
   ("trace", VDict [("guardrail", VStr "intervened")]);
   ("stopReason", VStr "end_turn")].

Definition good_stream : dict :=
  [("stream", VDict [("usage", VDict [("inputTokens", VInt 3)]);
                     ("trace", VDict [("guardrail", VStr "intervened")]);
                     ("stopReason", VStr "end_turn")])].

Definition good_client : Client :=
  {| converse := λ _, Return good_response;
     converse_stream := λ _, Return good_stream |}.

(** A service that throttles every request. *)
Definition throttling_client : Client :=
  {| converse := λ _, Raise (ClientError "ThrottlingException");
     converse_stream := λ _, Raise (ClientError "ThrottlingException") |}.

(** An endpoint that cannot be reached: botocore's connection error is not a
    [ClientError]. *)
Definition unreachable_client : Client :=
  {| converse :=
       λ _, Raise (OtherError "EndpointConnectionError" "Could not connect to the endpoint URL");
     converse_stream :=
       λ _, Raise (OtherError "EndpointConnectionError" "Could not connect to the endpoint URL") |}.

(** A service whose message the codec of this setting cannot decode. *)
Definition odd_client : Client :=
  {| converse :=
       λ _, Return [("output", VDict [("message", VDict [("role", VStr "assistant")])])];
     converse_stream := λ _, Return [] |}.

(** A service that answers with an empty mapping. *)
Definition empty_client : Client :=
  {| converse := λ _, Return [];
     converse_stream := λ _, Return [] |}.

Definition all_capabilities : gset ModelCapability :=
  {[SYSTEM_PROMPTS; VISION; DOCUMENT_CHAT; TOOL_USE; STREAMING_TOOL_USE;
    CONVERSE_STREAM; GUARDRAILS]}.

(** [re.match] for patterns whose only metacharacter is the dot: every
    character of the pattern has to agree with the identifier, from its first
    character on, a dot agreeing with any character. *)
Fixpoint match_dots (pattern name : string) : bool :=
  match pattern, name with
  | EmptyString, _ => true
  | String _ _, EmptyString => false
  | String p pattern', String c name' =>
      (Ascii.eqb p "."%char || Ascii.eqb p c) && match_dots pattern' name'
  end.

Definition externals : Externals :=
  {| MODEL_CAPABILITIES :=
       [("anthropic.claude-3", all_capabilities);
        ("amazon.titan-text", {[DOCUMENT_CHAT; CONVERSE_STREAM]})];
     re_match := match_dots;
     getenv := λ _, None;
     get_aws_session := λ _ _ _ _ _, Return {| session_client := λ _, Return good_client |};
     ConverseMessage_to_dict := message_to_dict;
     ConverseMessage_from_dict := message_from_dict;
     get_stream_message := λ stream _,
       Return ({| role := ASSISTANT; content := [TextItem "Hello"] |},
               match stream with VDict d => d | _ => [] end);
     deserialize_callable := λ name, Return {| callback_name := name |} |}.

Definition generator (caps : gset ModelCapability) (c : Client) (p : value)
  : AmazonBedrockConverseGenerator :=
  {| model := "amazon.titan-text-express-v1";
     aws_access_key_id := Some (from_env_var ["AWS_ACCESS_KEY_ID"] false);
     aws_secret_access_key := Some (from_env_var ["AWS_SECRET_ACCESS_KEY"] false);
     aws_session_token := Some (from_env_var ["AWS_SESSION_TOKEN"] false);
     aws_region_name := Some (from_env_var ["AWS_DEFAULT_REGION"] false);
     aws_profile_name := Some (from_env_var ["AWS_PROFILE"] false);
     client := c;
     inference_config := VNone;
     tool_config := VNone;
     streaming_callback := None;
     system_prompt := p;
     model_capabilities := caps |}.

(** The same setting with a stream that breaks while it is consumed. *)
Definition broken_stream : Externals :=
  {| MODEL_CAPABILITIES := MODEL_CAPABILITIES externals;
     re_match := re_match externals;
     getenv := getenv externals;
     get_aws_session := get_aws_session externals;
     ConverseMessage_to_dict := ConverseMessage_to_dict externals;
     ConverseMessage_from_dict := ConverseMessage_from_dict externals;
     get_stream_message := λ _ _, Raise (ClientError "ModelStreamErrorException");
     deserialize_callable := deserialize_callable externals |}.

(** The same setting with a table in which two patterns match the Claude 3
    models, the broader one first. *)
Definition overlapping : Externals :=
  {| MODEL_CAPABILITIES :=
       [("amazon.titan-text", {[DOCUMENT_CHAT; CONVERSE_STREAM]});
        ("anthropic.claude", {[SYSTEM_PROMPTS; CONVERSE_STREAM]});
        ("anthropic.claude-3", all_capabilities)];
     re_match := re_match externals;
     getenv := getenv externals;
     get_aws_session := get_aws_session externals;
     ConverseMessage_to_dict := ConverseMessage_to_dict externals;
     ConverseMessage_from_dict := ConverseMessage_from_dict externals;
     get_stream_message := get_stream_message externals;
     deserialize_callable := deserialize_callable externals |}.

Definition picture : ContentItem := ImageBlock (VDict [("format", VStr "png")]).

(** One user message with a text and an image, at location 0. *)
Definition world : World :=
  {| heap := {[ 0 := {| role := USER; content := [TextItem "Describe this"; picture] |} ]};
     log := [];
     calls := [] |}.

Definition print_chunk : Callback :=
  {| callback_name := "haystack.components.generators.utils.print_streaming_chunk" |}.

Definition be_brief : value := VList [VDict [("text", VStr "Be brief")]].

(** A second store: a message with an image at 0, a text-only one at 1 and
    an object outside the conversation at 2. *)
Definition world2 : World :=
  {| heap := {[ 0 := {| role := USER; content := [picture; TextItem "What is this?"] |};
                1 := {| role := ASSISTANT; content := [TextItem "A cat"] |};
                2 := {| role := USER; content := [picture] |} ]};
     log := [];
     calls := [] |}.

Definition some_tools : value := VDict [("tools", VList [VDict [("name", VStr "search")]])].

(** The parameters [to_dict] writes for a generator of this setting that has
    the default secrets and no callback. *)
Definition written : dict :=
  [("aws_access_key_id",
    VDict [("type", VStr "env_var"); ("env_vars", VList [VStr "AWS_ACCESS_KEY_ID"]);
           ("strict", VBool false)]);
   ("aws_secret_access_key",
    VDict [("type", VStr "env_var"); ("env_vars", VList [VStr "AWS_SECRET_ACCESS_KEY"]);
           ("strict", VBool false)]);
   ("aws_session_token",
    VDict [("type", VStr "env_var"); ("env_vars", VList [VStr "AWS_SESSION_TOKEN"]);
           ("strict", VBool false)]);
   ("aws_region_name",
    VDict [("type", VStr "env_var"); ("env_vars", VList [VStr "AWS_DEFAULT_REGION"]);
           ("strict", VBool false)]);
   ("aws_profile_name",
    VDict [("type", VStr "env_var"); ("env_vars", VList [VStr "AWS_PROFILE"]);
           ("strict", VBool false)]);
   ("model", VStr "amazon.titan-text-express-v1");
   ("streaming_callback", VNone)].

(** A generator built by the constructor with every parameter given. *)
Definition configured : outcome AmazonBedrockConverseGenerator :=
  __init__ externals "amazon.titan-text-express-v1"
    (Some (from_env_var ["AWS_ACCESS_KEY_ID"] false))
    (Some (from_env_var ["AWS_SECRET_ACCESS_KEY"] false))
    (Some (from_env_var ["AWS_SESSION_TOKEN"] false))
    (Some (from_env_var ["AWS_DEFAULT_REGION"] false))
    (Some (from_env_var ["AWS_PROFILE"] false))
    (VDict [("maxTokens", VInt 512)])
    (VDict [("tools", VList [])])
    (Some print_chunk)
    be_brief.

End Example.

(** * Properties *)

(** ** Dictionaries *)

Lemma dict_get_absent (d : dict) (k : string) :
  dict_mem d k = false → dict_get d k = VNone.
Proof.
  induction d as [|[k' v] d IH]; simpl; [done|].
  destruct (String.eqb k' k); simpl; [done|exact IH].
Qed.

(** ** Stripping images from the store *)

Lemma without_images_no_image (items : list ContentItem) :
  existsb is_ImageBlock (without_images items) = false.
Proof.
  induction items as [|item items IH]; simpl; [done|].
  destruct item; simpl; by rewrite ?IH.
Qed.

Lemma without_images_idemp (items : list ContentItem) :
  without_images (without_images items) = without_images items.
Proof.
  induction items as [|item items IH]; simpl; [done|].
  destruct item; simpl; by rewrite ?IH.
Qed.

Lemma without_images_id (items : list ContentItem) :
  existsb is_ImageBlock items = false → without_images items = items.
Proof.
  induction items as [|item items IH]; simpl; [done|].
  destruct item; simpl; try done; intros H; by rewrite IH.
Qed.

Lemma strip_text_only (msg : ConverseMessage) :
  existsb is_ImageBlock (content msg) = false → strip msg = msg.
Proof.
  intros Hno. unfold strip. rewrite without_images_id by done. by destruct msg.
Qed.

Lemma strip_idemp (msg : ConverseMessage) : strip (strip msg) = strip msg.
Proof. unfold strip; simpl. by rewrite without_images_idemp. Qed.

Lemma strip_all_cons (l : loc) (ms : list loc) (h : gmap loc ConverseMessage) :
  strip_all (l :: ms) h = strip_all ms (alter strip l h).
Proof. reflexivity. Qed.

Lemma strip_all_lookup_notin (ms : list loc) (h : gmap loc ConverseMessage) (l : loc) :
  l ∉ ms → strip_all ms h !! l = h !! l.
Proof.
  revert h. induction ms as [|a ms IH]; intros h Hnin; [done|].
  apply not_elem_of_cons in Hnin as [Hne Hnin].
  rewrite strip_all_cons, (IH _ Hnin). by apply lookup_alter_ne.
Qed.

Lemma strip_all_lookup_in (ms : list loc) (h : gmap loc ConverseMessage) (l : loc) :
  l ∈ ms → strip_all ms h !! l = strip <$> h !! l.
Proof.
  revert h. induction ms as [|a ms IH]; intros h Hin.
  - by apply elem_of_nil in Hin.
  - rewrite strip_all_cons.
    destruct (decide (l ∈ ms)) as [Hms|Hms].
    + rewrite (IH _ Hms). destruct (decide (a = l)) as [->|Hne].
      * rewrite lookup_alter_eq. destruct (h !! l); simpl; [|done].
        by rewrite strip_idemp.
      * by rewrite lookup_alter_ne.
    + apply elem_of_cons in Hin as [->|Hin]; [|done].
      rewrite strip_all_lookup_notin by done. apply lookup_alter_eq.
Qed.

Lemma any_image_strip_all (ms : list loc) (h : gmap loc ConverseMessage) :
  any_image (strip_all ms h) ms = false.
Proof.
  unfold any_image. apply not_true_is_false. intros Hex.
  apply existsb_exists in Hex as (l & Hin & Hl).
  apply list_elem_of_In in Hin.
  rewrite (strip_all_lookup_in _ _ _ Hin) in Hl.
  destruct (h !! l) as [msg|]; simpl in Hl; [|done].
  by rewrite without_images_no_image in Hl.
Qed.

(** ** The primitive actions *)

Lemma for_each_set_content (ms : list loc) (w : World) :
  for_each ms (λ msg, set_content msg without_images) w =
  (Return (), {| heap := strip_all ms (heap w); log := log w; calls := calls w |}).
Proof.
  revert w. induction ms as [|l ms IH]; intros w.
  - by destruct w.
  - simpl. unfold mbind, M_bind. simpl. by rewrite IH.
Qed.

(** ** The preparation phase in closed form *)

Section Prepare.
Context (X : Externals).

Lemma prepare_invalid self messages cb0 ic tc0 sp0 w :
  valid_messages (heap w) messages = false →
  prepare X self messages cb0 ic tc0 sp0 w =
  (Raise (ValueError ("The model " +:+ model self
                      +:+ " requires a list of ConverseMessage objects as input.")), w).
Proof.
  intros Hv. unfold prepare, mbind, M_bind, gets. by rewrite Hv.
Qed.

Lemma prepare_valid self messages cb0 ic tc0 sp0 w :
  valid_messages (heap w) messages = true →
  prepare X self messages cb0 ic tc0 sp0 w =
  (Return (callback_or cb0 (streaming_callback self),
           prepared_request X self (elements messages) (heap w) ic tc0),
   {| heap := prepared_heap self (elements messages) (heap w);
      log := log w ++ prepared_warnings self (callback_or cb0 (streaming_callback self))
                        (py_or sp0 (system_prompt self)) tc0;
      calls := calls w |}).
Proof.
  intros Hv. unfold prepare, mbind, M_bind, gets. rewrite Hv.
  unfold prepared_request, prepared_warnings, prepared_heap, surviving.
  destruct w as [h lg cs]. cbn [negb heap log calls].
  destruct (has (model_capabilities self) SYSTEM_PROMPTS),
           (truthy (py_or sp0 (system_prompt self))),
           (has (model_capabilities self) VISION),
           (has (model_capabilities self) DOCUMENT_CHAT),
           (has (model_capabilities self) TOOL_USE),
           (truthy tc0) eqn:Htc,
           (has (model_capabilities self) STREAMING_TOOL_USE),
           (bool_decide (is_Some (callback_or cb0 (streaming_callback self))));
    cbn -[String.append to_dicts strip_all for_each any_image];
    rewrite ?for_each_set_content;
    cbn -[String.append to_dicts strip_all for_each any_image];
    rewrite ?any_image_strip_all;
    cbn -[String.append to_dicts strip_all for_each any_image];
    rewrite ?Htc;
    cbn -[String.append to_dicts strip_all for_each any_image];
    rewrite <- ?app_assoc, ?app_nil_r; reflexivity.
Qed.

End Prepare.

(** ** The dispatch phase *)

Section Dispatch.
Context (X : Externals).

Ltac run_step :=
  unfold invoke, streaming_path, buffered_path, call, lift, raise, selected,
    try_except_ClientError, add_call, mbind, M_bind, mret, M_ret;
  cbn [fst snd heap log calls].

(** Exactly one transport operation is invoked, the selected one, and
    nothing else in the state changes. *)
Lemma invoke_world self cb request w :
  (invoke X self cb request w).2 = add_call w (selected self cb) request.
Proof.
  run_step. destruct cb as [c|]; cbn [bool_decide andb];
    rewrite ?bool_decide_eq_true_2 by eauto; cbn [andb].
  - destruct (has (model_capabilities self) CONVERSE_STREAM); cbn;
      repeat case_match; reflexivity.
  - rewrite bool_decide_eq_false_2 by (by intros [? ?]). cbn.
    repeat case_match; reflexivity.
Qed.

(** What is answered does not depend on the state. *)
Lemma invoke_outcome self cb request w w' :
  (invoke X self cb request w).1 = (invoke X self cb request w').1.
Proof.
  run_step. destruct cb as [c|];
    [destruct (has (model_capabilities self) CONVERSE_STREAM)|];
    cbn; repeat case_match; reflexivity.
Qed.

Lemma dispatch_world self cb request w :
  (dispatch X self cb request w).2 = add_call w (selected self cb) request.
Proof.
  pose proof (invoke_world self cb request w) as Hw.
  unfold dispatch, try_except_ClientError, raise, mbind, M_bind, mret, M_ret.
  destruct (invoke X self cb request w) as [[[m md]|e] w1]; cbn in *; [done|].
  by destruct (is_ClientError e).
Qed.

Lemma dispatch_outcome self cb request w w' :
  (dispatch X self cb request w).1 = (dispatch X self cb request w').1.
Proof.
  pose proof (invoke_outcome self cb request w w') as Hw.
  unfold dispatch, try_except_ClientError, raise, mbind, M_bind, mret, M_ret.
  destruct (invoke X self cb request w) as [[[m md]|e] w1],
           (invoke X self cb request w') as [[[m' md']|e'] w1'];
    cbn in *; simplify_eq; [done|].
  by destruct (is_ClientError e').
Qed.

(** On valid input [run] is [dispatch] on the prepared request. *)
Lemma run_valid self messages cb0 ic tc0 sp0 w :
  valid_messages (heap w) messages = true →
  run X self messages cb0 ic tc0 sp0 w =
  dispatch X self (callback_or cb0 (streaming_callback self))
    (prepared_request X self (elements messages) (heap w) ic tc0)
    {| heap := prepared_heap self (elements messages) (heap w);
       log := log w ++ prepared_warnings self (callback_or cb0 (streaming_callback self))
                         (py_or sp0 (system_prompt self)) tc0;
       calls := calls w |}.
Proof.
  intros Hv. unfold run, mbind at 1, M_bind at 1. by rewrite prepare_valid.
Qed.

Lemma run_invalid self messages cb0 ic tc0 sp0 w :
  valid_messages (heap w) messages = false →
  run X self messages cb0 ic tc0 sp0 w =
  (Raise (ValueError ("The model " +:+ model self
                      +:+ " requires a list of ConverseMessage objects as input.")), w).
Proof.
  intros Hv. unfold run, mbind at 1, M_bind at 1. by rewrite prepare_invalid.
Qed.

End Dispatch.

(** ** The state after a run *)

Lemma emitted_app (w w' : World) (ws : list Warning) :
  log w' = log w ++ ws → emitted w w' = ws.
Proof. unfold emitted. intros ->. apply drop_app_length. Qed.

Lemma run_valid_world (X : Externals) self messages cb0 ic tc0 sp0 w :
  valid_messages (heap w) messages = true →
  (run X self messages cb0 ic tc0 sp0 w).2 =
  {| heap := prepared_heap self (elements messages) (heap w);
     log := log w ++ prepared_warnings self (callback_or cb0 (streaming_callback self))
                       (py_or sp0 (system_prompt self)) tc0;
     calls := calls w ++ [(selected self (callback_or cb0 (streaming_callback self)),
                           prepared_request X self (elements messages) (heap w) ic tc0)] |}.
Proof.
  intros Hv. rewrite (run_valid X) by done. by rewrite dispatch_world.
Qed.

(** ** Input validation *)

Lemma valid_messages_false (h : gmap loc ConverseMessage) (messages : MessagesArg) :
  messages = NotAList
  ∨ messages = ListArg []
  ∨ (∃ refs l, messages = ListArg refs ∧ l ∈ refs ∧ h !! l = None) →
  valid_messages h messages = false.
Proof.
  intros [->|[->|(refs & l & -> & Hin & Hl)]]; [done..|].
  unfold valid_messages. cbn [isinstance_list elements andb].
  apply andb_false_iff. right. apply not_true_is_false. intros Hall.
  rewrite forallb_forall in Hall. apply list_elem_of_In, Hall in Hin.
  unfold isinstance_ConverseMessage in Hin. apply bool_decide_eq_true in Hin.
  rewrite Hl in Hin. by destruct Hin.
Qed.

(** C5: when [messages] is not a list, is empty, or holds an element that is
    not a [ConverseMessage], [run] raises the [ValueError] of line 172 and
    leaves the state as it found it: no message was rewritten, nothing was
    logged and no transport operation was invoked. *)
Theorem run_rejects_invalid_messages (X : Externals) (self : AmazonBedrockConverseGenerator)
    (messages : MessagesArg) (cb0 : option Callback) (ic tc0 sp0 : value) (w : World) :
  messages = NotAList
  ∨ messages = ListArg []
  ∨ (∃ refs l, messages = ListArg refs ∧ l ∈ refs ∧ heap w !! l = None) →
  run X self messages cb0 ic tc0 sp0 w =
  (Raise (ValueError ("The model " +:+ model self
                      +:+ " requires a list of ConverseMessage objects as input.")), w).
Proof.
  intros Hbad. apply run_invalid. by apply valid_messages_false.
Qed.

Lemma run_rejects_invalid_messages_witness :
  run Example.externals (Example.generator {[DOCUMENT_CHAT]} Example.good_client VNone)
      (ListArg [0; 7]) (Some Example.print_chunk) (VDict []) VNone Example.be_brief Example.world
  = (Raise (ValueError
       "The model amazon.titan-text-express-v1 requires a list of ConverseMessage objects as input."),
     Example.world).
Proof.
  apply (run_rejects_invalid_messages Example.externals
           (Example.generator {[DOCUMENT_CHAT]} Example.good_client VNone)
           (ListArg [0; 7]) (Some Example.print_chunk) (VDict []) VNone Example.be_brief
           Example.world).
  right; right. exists [0; 7], 7.
  split; [reflexivity|]. split; [|reflexivity].
  apply list_elem_of_further, list_elem_of_here.
Defined.

(** ** Dispatch *)

Lemma selected_with_capabilities self caps cb :
  (CONVERSE_STREAM ∈ caps ↔ CONVERSE_STREAM ∈ model_capabilities self) →
  selected (with_capabilities self caps) cb = selected self cb.
Proof.
  intros Hiff. unfold selected, has. cbn [model_capabilities with_capabilities].
  by rewrite (bool_decide_ext _ _ Hiff).
Qed.

(** C2: on input that passes validation, [run] invokes exactly one transport
    operation; it is [converse_stream] if and only if a streaming callback is
    in effect and [CONVERSE_STREAM] is among the capabilities, and [converse]
    in every other case.  No other capability takes part: a generator that
    differs only in capabilities other than [CONVERSE_STREAM], such as
    [STREAMING_TOOL_USE], invokes the same operation. *)
Theorem run_dispatch_selection (X : Externals) (self : AmazonBedrockConverseGenerator)
    (messages : MessagesArg) (cb0 : option Callback) (ic tc0 sp0 : value) (w : World) :
  valid_messages (heap w) messages = true →
  (∃ op request,
     calls (run X self messages cb0 ic tc0 sp0 w).2 = calls w ++ [(op, request)]
     ∧ (op = ConverseStream ↔
          is_Some (callback_or cb0 (streaming_callback self))
          ∧ CONVERSE_STREAM ∈ model_capabilities self)
     ∧ (op = Converse ↔
          ¬ (is_Some (callback_or cb0 (streaming_callback self))
             ∧ CONVERSE_STREAM ∈ model_capabilities self)))
  ∧ (∀ caps,
       (CONVERSE_STREAM ∈ caps ↔ CONVERSE_STREAM ∈ model_capabilities self) →
       (calls (run X (with_capabilities self caps) messages cb0 ic tc0 sp0 w).2).*1
       = (calls (run X self messages cb0 ic tc0 sp0 w).2).*1).
Proof.
  intros Hv. split.
  - rewrite run_valid_world by done. cbn [calls].
    eexists _, _. split; [reflexivity|].
    unfold selected, has.
    destruct (bool_decide (is_Some (callback_or cb0 (streaming_callback self)))) eqn:Hcb;
      destruct (bool_decide (CONVERSE_STREAM ∈ model_capabilities self)) eqn:Hcs;
      cbn [andb];
      try apply bool_decide_eq_true in Hcb; try apply bool_decide_eq_false in Hcb;
      try apply bool_decide_eq_true in Hcs; try apply bool_decide_eq_false in Hcs;
      intuition congruence.
  - intros caps Hiff.
    rewrite (run_valid_world X self), (run_valid_world X (with_capabilities self caps)) by done.
    cbn [calls]. rewrite !fmap_app. cbn [fmap list_fmap fst].
    cbn [streaming_callback with_capabilities].
    by rewrite selected_with_capabilities.
Qed.

Lemma run_dispatch_selection_witness :
  let self :=
    Example.generator {[DOCUMENT_CHAT; CONVERSE_STREAM]} Example.good_client VNone in
  let run_on g :=
    run Example.externals g (ListArg [0]) (Some Example.print_chunk) (VDict [])
        (VDict [("tools", VList [])]) VNone Example.world in
  (∃ op request,
     calls (run_on self).2 = calls Example.world ++ [(op, request)]
     ∧ (op = ConverseStream ↔
          is_Some (callback_or (Some Example.print_chunk) (streaming_callback self))
          ∧ CONVERSE_STREAM ∈ model_capabilities self)
     ∧ (op = Converse ↔
          ¬ (is_Some (callback_or (Some Example.print_chunk) (streaming_callback self))
             ∧ CONVERSE_STREAM ∈ model_capabilities self)))
  ∧ (∀ caps,
       (CONVERSE_STREAM ∈ caps ↔ CONVERSE_STREAM ∈ model_capabilities self) →
       (calls (run_on (with_capabilities self caps)).2).*1 = (calls (run_on self).2).*1).
Proof.
  refine (run_dispatch_selection Example.externals
            (Example.generator {[DOCUMENT_CHAT; CONVERSE_STREAM]} Example.good_client VNone)
            (ListArg [0]) (Some Example.print_chunk) (VDict [])
            (VDict [("tools", VList [])]) VNone Example.world _).
  vm_compute. reflexivity.
Defined.

Section Paths.
Context (X : Externals).

Lemma invoke_buffered self cb request :
  selected self cb = Converse → invoke X self cb request = buffered_path X self request.
Proof.
  unfold selected, invoke. destruct cb as [c|]; [|done].
  rewrite bool_decide_eq_true_2 by eauto. cbn [andb].
  by destruct (has (model_capabilities self) CONVERSE_STREAM).
Qed.

Lemma invoke_streaming self cb request :
  selected self cb = ConverseStream →
  ∃ callback, cb = Some callback ∧ invoke X self cb request = streaming_path X self callback request.
Proof.
  unfold selected, invoke. destruct cb as [c|].
  - rewrite bool_decide_eq_true_2 by eauto. cbn [andb].
    destruct (has (model_capabilities self) CONVERSE_STREAM); [eauto|done].
  - rewrite bool_decide_eq_false_2 by (by intros [? ?]). done.
Qed.

(** On the buffered path the metadata is the response itself. *)
Lemma buffered_metadata self request w message metadata :
  (buffered_path X self request w).1 = Return (message, metadata) →
  converse (client self) request = Return metadata.
Proof.
  unfold buffered_path, call, lift, raise, mbind, M_bind, mret, M_ret.
  destruct (converse (client self) request) as [response|e]; cbn; [|done].
  repeat case_match; cbn; intros; simplify_eq; done.
Qed.

(** A failure of the selected operation is the failure of [invoke]. *)
Lemma invoke_operation_fails self cb request w e :
  operation (client self) (selected self cb) request = Raise e →
  (invoke X self cb request w).1 = Raise e.
Proof.
  destruct (selected self cb) eqn:Hsel; cbn [operation]; intros Hop.
  - rewrite invoke_buffered by done.
    unfold buffered_path, call, mbind, M_bind. by rewrite Hop.
  - destruct (invoke_streaming self cb request Hsel) as (c & -> & ->).
    unfold streaming_path, call, mbind, M_bind. by rewrite Hop.
Qed.

(** How [dispatch] turns what [invoke] yields into its own outcome. *)
Lemma dispatch_invoke self cb request w :
  (dispatch X self cb request w).1 =
  match (invoke X self cb request w).1 with
  | Return (message, metadata) => Return (normalize self message metadata)
  | Raise e =>
      if is_ClientError e
      then Raise (AmazonBedrockInferenceError (inference_msg self e) e)
      else Raise e
  end.
Proof.
  unfold dispatch, try_except_ClientError, raise, mbind, M_bind, mret, M_ret.
  destruct (invoke X self cb request w) as [[[m md]|e] w1]; cbn; [done|].
  by destruct (is_ClientError e).
Qed.

End Paths.

(** ** Normalisation *)

(** C4: whenever [run] returns a result, its [guardrail_trace] is [None] if
    [GUARDRAILS] is not among the capabilities, whatever the metadata holds
    under ["trace"], and it is the metadata's ["trace"] entry if [GUARDRAILS]
    is among them.  The metadata is what the branch taken produced; on the
    buffered path it is the transport response itself. *)
Theorem run_guardrail_trace (X : Externals) (self : AmazonBedrockConverseGenerator)
    (messages : MessagesArg) (cb0 : option Callback) (ic tc0 sp0 : value)
    (w : World) (r : InvocationResult) :
  (run X self messages cb0 ic tc0 sp0 w).1 = Return r →
  let cb := callback_or cb0 (streaming_callback self) in
  let request := prepared_request X self (elements messages) (heap w) ic tc0 in
  ∃ message metadata,
    (invoke X self cb request w).1 = Return (message, metadata)
    ∧ (selected self cb = Converse → converse (client self) request = Return metadata)
    ∧ (GUARDRAILS ∉ model_capabilities self → guardrail_trace r = VNone)
    ∧ (GUARDRAILS ∈ model_capabilities self → guardrail_trace r = dict_get metadata "trace").
Proof.
  intros Hrun cb request.
  destruct (valid_messages (heap w) messages) eqn:Hv.
  2: { by rewrite (run_invalid X) in Hrun. }
  rewrite (run_valid X) in Hrun by done. fold cb request in Hrun.
  rewrite dispatch_invoke in Hrun.
  rewrite (invoke_outcome X self cb request _ w) in Hrun.
  destruct (invoke X self cb request w).1 as [[message metadata]|e] eqn:Hinv.
  2: { by destruct (is_ClientError e). }
  injection Hrun as <-. exists message, metadata.
  split; [done|]. split; [|split].
  - intros Hsel. rewrite invoke_buffered in Hinv by done.
    by apply buffered_metadata in Hinv.
  - intros Hno. cbn. unfold has. by rewrite bool_decide_eq_false_2.
  - intros Hyes. cbn. unfold has. by rewrite bool_decide_eq_true_2.
Qed.

Lemma run_guardrail_trace_witness :
  ∃ message metadata,
    (invoke Example.externals
       (Example.generator {[DOCUMENT_CHAT; CONVERSE_STREAM]} Example.good_client VNone) None
       (prepared_request Example.externals
          (Example.generator {[DOCUMENT_CHAT; CONVERSE_STREAM]} Example.good_client VNone)
          [0] (heap Example.world) (VDict []) VNone)
       Example.world).1 = Return (message, metadata)
    ∧ (selected (Example.generator {[DOCUMENT_CHAT; CONVERSE_STREAM]} Example.good_client VNone)
         None = Converse →
       converse Example.good_client
         (prepared_request Example.externals
            (Example.generator {[DOCUMENT_CHAT; CONVERSE_STREAM]} Example.good_client VNone)
            [0] (heap Example.world) (VDict []) VNone) = Return metadata)
    ∧ (GUARDRAILS ∉ ({[DOCUMENT_CHAT; CONVERSE_STREAM]} : gset ModelCapability) →
       guardrail_trace
         {| message := {| role := ASSISTANT; content := [TextItem "Hello"] |};
            usage := VDict [("inputTokens", VInt 3); ("outputTokens", VInt 1)];
            metrics := VDict [("latencyMs", VInt 120)];
            guardrail_trace := VNone;
            stop_reason := VStr "end_turn" |} = VNone)
    ∧ (GUARDRAILS ∈ ({[DOCUMENT_CHAT; CONVERSE_STREAM]} : gset ModelCapability) →
       guardrail_trace
         {| message := {| role := ASSISTANT; content := [TextItem "Hello"] |};
            usage := VDict [("inputTokens", VInt 3); ("outputTokens", VInt 1)];
            metrics := VDict [("latencyMs", VInt 120)];
            guardrail_trace := VNone;
            stop_reason := VStr "end_turn" |} = dict_get metadata "trace").
Proof.
  refine (run_guardrail_trace Example.externals
            (Example.generator {[DOCUMENT_CHAT; CONVERSE_STREAM]} Example.good_client VNone)
            (ListArg [0]) None (VDict []) VNone VNone Example.world
            {| message := {| role := ASSISTANT; content := [TextItem "Hello"] |};
               usage := VDict [("inputTokens", VInt 3); ("outputTokens", VInt 1)];
               metrics := VDict [("latencyMs", VInt 120)];
               guardrail_trace := VNone;
               stop_reason := VStr "end_turn" |} _).
  vm_compute. reflexivity.
Defined.

(** ** Failures on the way back *)

(** C6: on the buffered path, when the response has no ["output"] entry, or
    its ["output"] has no ["message"] entry, [run] raises a [KeyError]: the
    error is not translated into [AmazonBedrockInferenceError] and no result
    is returned. *)
Theorem buffered_malformed_response (X : Externals) (self : AmazonBedrockConverseGenerator)
    (messages : MessagesArg) (cb0 : option Callback) (ic tc0 sp0 : value)
    (w : World) (response : dict) :
  valid_messages (heap w) messages = true →
  selected self (callback_or cb0 (streaming_callback self)) = Converse →
  converse (client self) (prepared_request X self (elements messages) (heap w) ic tc0)
    = Return response →
  dict_mem response "output" = false
  ∨ (∃ output, dict_get response "output" = VDict output ∧ dict_mem output "message" = false) →
  ∃ msg, (run X self messages cb0 ic tc0 sp0 w).1 = Raise (KeyError msg).
Proof.
  intros Hv Hsel Hresp Hbad.
  rewrite (run_valid X) by done. rewrite dispatch_invoke.
  rewrite invoke_buffered by done.
  unfold buffered_path, call, raise, mbind, M_bind. rewrite Hresp.
  cbn [fst snd].
  destruct Hbad as [Hout|(output & Hout & Hmsg)].
  - rewrite (dict_get_absent _ _ Hout). cbn. eauto.
  - rewrite Hout, (dict_get_absent _ _ Hmsg). cbn. eauto.
Qed.

Lemma buffered_malformed_response_witness :
  ∃ msg,
    (run Example.externals (Example.generator {[DOCUMENT_CHAT]} Example.empty_client VNone)
         (ListArg [0]) None (VDict []) VNone VNone Example.world).1 = Raise (KeyError msg).
Proof.
  refine (buffered_malformed_response Example.externals
            (Example.generator {[DOCUMENT_CHAT]} Example.empty_client VNone)
            (ListArg [0]) None (VDict []) VNone VNone Example.world [] _ _ _ _).
  - vm_compute. reflexivity.
  - vm_compute. reflexivity.
  - reflexivity.
  - left. reflexivity.
Defined.

(** C7 (amended): a [ClientError] raised by the transport operation that
    [run] selected, [converse] or [converse_stream], comes out of [run] as one
    [AmazonBedrockInferenceError] whose cause is that error and whose message
    contains the model identifier; the operation was invoked once.  The
    [except] clause of line 236 names [ClientError] only: a failure of
    another class is not covered. *)
Theorem transport_failure_translated (X : Externals) (self : AmazonBedrockConverseGenerator)
    (messages : MessagesArg) (cb0 : option Callback) (ic tc0 sp0 : value)
    (w : World) (reason : string) :
  valid_messages (heap w) messages = true →
  let cb := callback_or cb0 (streaming_callback self) in
  let request := prepared_request X self (elements messages) (heap w) ic tc0 in
  operation (client self) (selected self cb) request = Raise (ClientError reason) →
  (run X self messages cb0 ic tc0 sp0 w).1 =
    Raise (AmazonBedrockInferenceError
             ("Could not run inference on Amazon Bedrock model " +:+ model self
              +:+ " due to: " +:+ reason)
             (ClientError reason))
  ∧ calls (run X self messages cb0 ic tc0 sp0 w).2 = calls w ++ [(selected self cb, request)].
Proof.
  intros Hv cb request Hop.
  rewrite (run_valid X) by done. fold cb request.
  rewrite dispatch_invoke, dispatch_world.
  by rewrite (invoke_operation_fails X _ _ _ _ _ Hop).
Qed.

Lemma transport_failure_translated_witness :
  (run Example.externals
       (Example.generator {[DOCUMENT_CHAT; CONVERSE_STREAM]} Example.throttling_client VNone)
       (ListArg [0]) (Some Example.print_chunk) (VDict []) VNone VNone Example.world).1 =
    Raise (AmazonBedrockInferenceError
             "Could not run inference on Amazon Bedrock model amazon.titan-text-express-v1 due to: ThrottlingException"
             (ClientError "ThrottlingException"))
  ∧ calls (run Example.externals
             (Example.generator {[DOCUMENT_CHAT; CONVERSE_STREAM]} Example.throttling_client VNone)
             (ListArg [0]) (Some Example.print_chunk) (VDict []) VNone VNone Example.world).2
    = calls Example.world
      ++ [(ConverseStream,
           prepared_request Example.externals
             (Example.generator {[DOCUMENT_CHAT; CONVERSE_STREAM]} Example.throttling_client VNone)
             [0] (heap Example.world) (VDict []) VNone)].
Proof.
  refine (transport_failure_translated Example.externals
            (Example.generator {[DOCUMENT_CHAT; CONVERSE_STREAM]} Example.throttling_client VNone)
            (ListArg [0]) (Some Example.print_chunk) (VDict []) VNone VNone Example.world
            "ThrottlingException" _ _).
  - vm_compute. reflexivity.
  - vm_compute. reflexivity.
Defined.

(** C7 (counterexample): a failure of the transport that is not a
    [ClientError] is not translated.  The endpoint cannot be reached, so
    [converse] raises botocore's connection error; [run] fails with that very
    exception, and not with an [AmazonBedrockInferenceError]. *)
Lemma connection_failure_not_translated :
  let self := Example.generator {[DOCUMENT_CHAT]} Example.unreachable_client VNone in
  let outcome_of_run :=
    (run Example.externals self (ListArg [0]) None (VDict []) VNone VNone Example.world).1 in
  valid_messages (heap Example.world) (ListArg [0]) = true
  ∧ operation (client self) (selected self None)
      (prepared_request Example.externals self [0] (heap Example.world) (VDict []) VNone)
    = Raise (OtherError "EndpointConnectionError" "Could not connect to the endpoint URL")
  ∧ outcome_of_run
    = Raise (OtherError "EndpointConnectionError" "Could not connect to the endpoint URL")
  ∧ ¬ (∃ msg cause, outcome_of_run = Raise (AmazonBedrockInferenceError msg cause)).
Proof.
  cbn zeta. split; [vm_compute; reflexivity|]. split; [vm_compute; reflexivity|].
  split; [vm_compute; reflexivity|].
  intros (msg & cause & Hrun). vm_compute in Hrun. discriminate Hrun.
Qed.

(** What the [except] clause does not name passes through: a failure of the
    selected operation that is not a [ClientError] comes out of [run] as it
    is. *)
Lemma other_failure_propagates (X : Externals) self messages cb0 ic tc0 sp0 w e :
  valid_messages (heap w) messages = true →
  operation (client self) (selected self (callback_or cb0 (streaming_callback self)))
    (prepared_request X self (elements messages) (heap w) ic tc0) = Raise e →
  is_ClientError e = false →
  (run X self messages cb0 ic tc0 sp0 w).1 = Raise e.
Proof.
  intros Hv Hop He. rewrite (run_valid X) by done. rewrite dispatch_invoke.
  rewrite (invoke_operation_fails X _ _ _ _ _ Hop). by rewrite He.
Qed.

(** ** The system prompt *)

(** C8: for a generator without [SYSTEM_PROMPTS] and input that passes
    validation, a run with a non-empty [system_prompt] has the same outcome,
    leaves the same store and sends the same request as a run with no system
    prompt at all (none passed, none set on the generator); what it logs is
    the system-prompt warning for the model followed by what the other run
    logs, which holds no such warning. *)
Theorem unsupported_system_prompt_ignored (X : Externals)
    (self : AmazonBedrockConverseGenerator) (messages : MessagesArg)
    (cb0 : option Callback) (ic tc0 sp : value) (w : World) :
  SYSTEM_PROMPTS ∉ model_capabilities self →
  truthy sp = true →
  valid_messages (heap w) messages = true →
  let with_prompt := run X self messages cb0 ic tc0 sp w in
  let without := run X (with_system_prompt self VNone) messages cb0 ic tc0 VNone w in
  with_prompt.1 = without.1
  ∧ heap with_prompt.2 = heap without.2
  ∧ calls with_prompt.2 = calls without.2
  ∧ emitted w with_prompt.2 = NoSystemPrompts (model self) :: emitted w without.2
  ∧ NoSystemPrompts (model self) ∉ emitted w without.2.
Proof.
  intros Hno Hsp Hv with_prompt without.
  assert (Hlog1 : emitted w with_prompt.2 =
                  prepared_warnings self (callback_or cb0 (streaming_callback self)) sp tc0).
  { apply emitted_app. unfold with_prompt. rewrite run_valid_world by done.
    cbn [log]. unfold py_or. by rewrite Hsp. }
  assert (Hlog2 : emitted w without.2 =
                  prepared_warnings self (callback_or cb0 (streaming_callback self)) VNone tc0).
  { apply emitted_app. unfold without. rewrite run_valid_world by done. reflexivity. }
  split; [|split; [|split; [|split]]].
  - unfold with_prompt, without. rewrite !(run_valid X) by done.
    apply (dispatch_outcome X self).
  - unfold with_prompt, without.
    rewrite (run_valid_world X self), (run_valid_world X (with_system_prompt self VNone)) by done.
    reflexivity.
  - unfold with_prompt, without.
    rewrite (run_valid_world X self), (run_valid_world X (with_system_prompt self VNone)) by done.
    reflexivity.
  - rewrite Hlog1, Hlog2. unfold prepared_warnings, has.
    rewrite bool_decide_eq_false_2 by done. by rewrite Hsp.
  - rewrite Hlog2. unfold prepared_warnings. cbn [truthy andb].
    rewrite andb_false_r. cbn [app].
    rewrite !not_elem_of_app. repeat split; case_match;
      rewrite ?list_elem_of_singleton; (done || apply not_elem_of_nil).
Qed.

Lemma unsupported_system_prompt_ignored_witness :
  let with_prompt :=
    run Example.externals (Example.generator {[CONVERSE_STREAM]} Example.good_client VNone)
        (ListArg [0]) None (VDict []) VNone Example.be_brief Example.world in
  let without :=
    run Example.externals
        (with_system_prompt (Example.generator {[CONVERSE_STREAM]} Example.good_client VNone) VNone)
        (ListArg [0]) None (VDict []) VNone VNone Example.world in
  with_prompt.1 = without.1
  ∧ heap with_prompt.2 = heap without.2
  ∧ calls with_prompt.2 = calls without.2
  ∧ emitted Example.world with_prompt.2
    = NoSystemPrompts "amazon.titan-text-express-v1" :: emitted Example.world without.2
  ∧ NoSystemPrompts "amazon.titan-text-express-v1" ∉ emitted Example.world without.2.
Proof.
  refine (unsupported_system_prompt_ignored Example.externals
            (Example.generator {[CONVERSE_STREAM]} Example.good_client VNone)
            (ListArg [0]) None (VDict []) VNone Example.be_brief Example.world _ _ _).
  - apply (bool_decide_unpack _). vm_compute. exact I.
  - reflexivity.
  - vm_compute. reflexivity.
Defined.

(** ** The request *)

(** C10: on input that passes validation the request handed to the transport
    is the dictionary with the entries [modelId], [inferenceConfig] and
    [messages] (the messages as the store holds them after the run), followed
    by [toolConfig] exactly when a truthy tool configuration survived step 4.
    No entry comes from the system prompt: whatever prompt is set on the
    generator or passed to [run], the same transport invocation is recorded. *)
Theorem request_fields (X : Externals) (self : AmazonBedrockConverseGenerator)
    (messages : MessagesArg) (cb0 : option Callback) (ic tc0 sp0 : value) (w : World) :
  valid_messages (heap w) messages = true →
  let after := (run X self messages cb0 ic tc0 sp0 w).2 in
  (∃ op,
     calls after =
     calls w ++
     [(op,
       [("modelId", VStr (model self));
        ("inferenceConfig", ic);
        ("messages", VList (to_dicts (ConverseMessage_to_dict X) (heap after) (elements messages)))]
       ++ (if truthy (surviving self tc0) then [("toolConfig", surviving self tc0)] else []))])
  ∧ (∀ p sp, calls (run X (with_system_prompt self p) messages cb0 ic tc0 sp w).2 = calls after).
Proof.
  intros Hv after. unfold after. split.
  - rewrite run_valid_world by done. cbn [calls heap]. eexists. reflexivity.
  - intros p sp.
    rewrite (run_valid_world X self), (run_valid_world X (with_system_prompt self p)) by done.
    reflexivity.
Qed.

Lemma request_fields_witness :
  let self := Example.generator Example.all_capabilities Example.good_client VNone in
  let after :=
    (run Example.externals self (ListArg [0]) None (VDict [("maxTokens", VInt 512)])
         (VDict [("tools", VList [])]) Example.be_brief Example.world).2 in
  (∃ op,
     calls after =
     calls Example.world ++
     [(op,
       [("modelId", VStr "amazon.titan-text-express-v1");
        ("inferenceConfig", VDict [("maxTokens", VInt 512)]);
        ("messages", VList (to_dicts Example.message_to_dict (heap after) [0]))]
       ++ (if truthy (surviving self (VDict [("tools", VList [])]))
           then [("toolConfig", surviving self (VDict [("tools", VList [])]))] else []))])
  ∧ (∀ p sp,
       calls (run Example.externals (with_system_prompt self p) (ListArg [0]) None
                  (VDict [("maxTokens", VInt 512)]) (VDict [("tools", VList [])]) sp
                  Example.world).2 = calls after).
Proof.
  refine (request_fields Example.externals
            (Example.generator Example.all_capabilities Example.good_client VNone)
            (ListArg [0]) None (VDict [("maxTokens", VInt 512)])
            (VDict [("tools", VList [])]) Example.be_brief Example.world _).
  vm_compute. reflexivity.
Defined.

(** ** Vision *)

(** Without [VISION], the messages of the list lose their image blocks in the
    store, and no other object changes. *)
Lemma run_strips_images (X : Externals) self messages cb0 ic tc0 sp0 w l :
  valid_messages (heap w) messages = true →
  VISION ∉ model_capabilities self →
  heap (run X self messages cb0 ic tc0 sp0 w).2 !! l =
  if decide (l ∈ elements messages) then strip <$> heap w !! l else heap w !! l.
Proof.
  intros Hv Hno. rewrite run_valid_world by done. cbn [heap].
  unfold prepared_heap, has. rewrite bool_decide_eq_false_2 by done.
  case_decide; [by apply strip_all_lookup_in|by apply strip_all_lookup_notin].
Qed.

(** A message that holds no image is left as it is. *)
Lemma run_text_only_unaffected (X : Externals) self messages cb0 ic tc0 sp0 w l msg :
  valid_messages (heap w) messages = true →
  VISION ∉ model_capabilities self →
  heap w !! l = Some msg →
  existsb is_ImageBlock (content msg) = false →
  heap (run X self messages cb0 ic tc0 sp0 w).2 !! l = Some msg.
Proof.
  intros Hv Hno Hl Htext. rewrite run_strips_images by done.
  case_decide; [|done]. rewrite Hl. cbn. by rewrite strip_text_only.
Qed.

(** With [VISION] the store is left alone. *)
Lemma run_keeps_images (X : Externals) self messages cb0 ic tc0 sp0 w :
  valid_messages (heap w) messages = true →
  VISION ∈ model_capabilities self →
  heap (run X self messages cb0 ic tc0 sp0 w).2 = heap w.
Proof.
  intros Hv Hyes. rewrite run_valid_world by done. cbn [heap].
  unfold prepared_heap, has. by rewrite bool_decide_eq_true_2.
Qed.

(** The test of line 184 reads the lists that line 183 has just filtered, so
    the vision warning is never logged, whatever the messages held. *)
Lemma vision_warning_never_emitted (X : Externals) self messages cb0 ic tc0 sp0 w name :
  NoVision name ∉ emitted w (run X self messages cb0 ic tc0 sp0 w).2.
Proof.
  destruct (valid_messages (heap w) messages) eqn:Hv.
  - rewrite (emitted_app _ _ (prepared_warnings self (callback_or cb0 (streaming_callback self))
                                (py_or sp0 (system_prompt self)) tc0)).
    2: { by rewrite run_valid_world by done. }
    unfold prepared_warnings. cbn zeta.
    rewrite !not_elem_of_app. repeat split; case_match;
      rewrite ?list_elem_of_singleton; (done || apply not_elem_of_nil).
  - rewrite (run_invalid X) by done. cbn [snd].
    rewrite (emitted_app w w []); [apply not_elem_of_nil|by rewrite app_nil_r].
Qed.

(** C1 (evaluation at the failing input): for a model without [VISION] and a
    user message holding a text and an image, [run] removes the image from the
    message in the store, and the log stays empty: the warning that line 185
    is there to emit does not appear. *)
Theorem image_removed_without_warning :
  let self := Example.generator {[DOCUMENT_CHAT]} Example.good_client VNone in
  let after :=
    (run Example.externals self (ListArg [0]) None (VDict []) VNone VNone Example.world).2 in
  (VISION ∉ model_capabilities self)
  ∧ heap Example.world !! 0
    = Some {| role := USER; content := [TextItem "Describe this"; Example.picture] |}
  ∧ heap after !! 0 = Some {| role := USER; content := [TextItem "Describe this"] |}
  ∧ log after = [].
Proof.
  cbn zeta. split; [|split; [|split]].
  - apply (bool_decide_unpack _). vm_compute. exact I.
  - vm_compute. reflexivity.
  - vm_compute. reflexivity.
  - vm_compute. reflexivity.
Qed.

(** ** Construction *)

Lemma get_model_capabilities_unmatched (X : Externals) (name : string) :
  first_match X (MODEL_CAPABILITIES X) name = None →
  _get_model_capabilities X name = Raise (ValueError ("Unsupported model: " +:+ name)).
Proof. unfold _get_model_capabilities. by intros ->. Qed.

(** Whatever goes wrong inside the [try] block of [__init__], a failed lookup
    of the model included, comes out as the configuration error. *)
Lemma init_unmatched_model (X : Externals) (name : string)
    (k1 k2 k3 k4 k5 : option Secret) (ic tc : value) (cb : option Callback) (sp : value) :
  name ≠ "" →
  first_match X (MODEL_CAPABILITIES X) name = None →
  ∃ cause,
    __init__ X name k1 k2 k3 k4 k5 ic tc cb sp
    = Raise (AmazonBedrockConfigurationError connect_msg cause).
Proof.
  intros Hne Hnone. unfold __init__.
  destruct (String.eqb_spec name "") as [Heq|_].
  { done. }
  rewrite (get_model_capabilities_unmatched X name Hnone).
  unfold try_except, mbind, outcome_bind.
  repeat case_match; simplify_eq; eauto.
Qed.

(** C3 (evaluation at the failing input): an identifier that matches no
    pattern makes [_get_model_capabilities] raise the [ValueError] that names
    it, but the constructor fails with [AmazonBedrockConfigurationError] and
    the message about connecting to Amazon Bedrock; the [ValueError] is only
    its cause. *)
Theorem unmatched_model_reported_as_configuration_error :
  first_match Example.externals (MODEL_CAPABILITIES Example.externals) "unknown.model-v1" = None
  ∧ _get_model_capabilities Example.externals "unknown.model-v1"
    = Raise (ValueError "Unsupported model: unknown.model-v1")
  ∧ __init__ Example.externals "unknown.model-v1" None None None None None
             VNone VNone None VNone
    = Raise (AmazonBedrockConfigurationError
               ("Could not connect to Amazon Bedrock. Make sure the AWS environment is configured correctly. "
                +:+ "See https://boto3.amazonaws.com/v1/documentation/api/latest/guide/quickstart.html#configuration")
               (ValueError "Unsupported model: unknown.model-v1")).
Proof.
  split; [|split]; vm_compute; reflexivity.
Qed.

(** ** Serialization round trip *)

(** [to_dict] writes seven parameters; [inference_config], [tool_config] and
    [system_prompt] are not among them. *)
Lemma to_dict_init_parameters (self : AmazonBedrockConverseGenerator) (data : dict) :
  to_dict self = Return data →
  ∃ init_parameters,
    dict_get data "init_parameters" = VDict init_parameters
    ∧ dict_keys init_parameters =
      ["aws_access_key_id"; "aws_secret_access_key"; "aws_session_token";
       "aws_region_name"; "aws_profile_name"; "model"; "streaming_callback"].
Proof.
  unfold to_dict, mbind, outcome_bind, mret, outcome_ret.
  repeat case_match; intros; simplify_eq; eexists; split; reflexivity.
Qed.

(** A token is never written out: serialization refuses. *)
Lemma to_dict_refuses_token (self : AmazonBedrockConverseGenerator) (token : string) :
  aws_access_key_id self = Some (TokenSecret token) → ∃ e, to_dict self = Raise e.
Proof.
  intros Hk. unfold to_dict, mbind, outcome_bind. rewrite Hk. cbn. eauto.
Qed.

(** C9 (evaluation at the failing input): a generator constructed with an
    inference configuration, a tool configuration, a streaming callback and a
    system prompt serializes and deserializes without error; the model, the
    five secrets and the callback come back, the other three parameters come
    back as [None]. *)
Theorem roundtrip_drops_parameters :
  ∃ self data back,
    Example.configured = Return self
    ∧ to_dict self = Return data
    ∧ from_dict Example.externals data = Return back
    ∧ model back = model self
    ∧ aws_access_key_id back = aws_access_key_id self
    ∧ aws_secret_access_key back = aws_secret_access_key self
    ∧ aws_session_token back = aws_session_token self
    ∧ aws_region_name back = aws_region_name self
    ∧ aws_profile_name back = aws_profile_name self
    ∧ streaming_callback back = streaming_callback self
    ∧ (inference_config self = VDict [("maxTokens", VInt 512)] ∧ inference_config back = VNone)
    ∧ (tool_config self = VDict [("tools", VList [])] ∧ tool_config back = VNone)
    ∧ (system_prompt self = Example.be_brief ∧ system_prompt back = VNone).
Proof.
  eexists _, _, _.
  split; [vm_compute; reflexivity|].
  split; [vm_compute; reflexivity|].
  split; [vm_compute; reflexivity|].
  repeat split; vm_compute; reflexivity.
Qed.

(** * Further properties of the pipeline *)

(** ** Warnings *)

Lemma has_true (caps : gset ModelCapability) (c : ModelCapability) :
  has caps c = true ↔ c ∈ caps.
Proof. unfold has. apply bool_decide_eq_true. Qed.

Lemma has_false (caps : gset ModelCapability) (c : ModelCapability) :
  has caps c = false ↔ c ∉ caps.
Proof. unfold has. apply bool_decide_eq_false. Qed.

Lemma truthy_surviving self tc :
  truthy (surviving self tc) = has (model_capabilities self) TOOL_USE && truthy tc.
Proof.
  unfold surviving.
  destruct (has (model_capabilities self) TOOL_USE), (truthy tc) eqn:Htc; cbn; by rewrite ?Htc.
Qed.

Lemma run_valid_emitted (X : Externals) self messages cb0 ic tc0 sp0 w :
  valid_messages (heap w) messages = true →
  emitted w (run X self messages cb0 ic tc0 sp0 w).2 =
  prepared_warnings self (callback_or cb0 (streaming_callback self))
    (py_or sp0 (system_prompt self)) tc0.
Proof.
  intros Hv. apply emitted_app. by rewrite run_valid_world by done.
Qed.

Lemma elem_of_prepared_warnings self cb sp tc x :
  x ∈ prepared_warnings self cb sp tc ↔
    (x = NoSystemPrompts (model self)
     ∧ has (model_capabilities self) SYSTEM_PROMPTS = false ∧ truthy sp = true)
    ∨ (x = NoDocumentChat (model self) ∧ has (model_capabilities self) DOCUMENT_CHAT = false)
    ∨ (x = NoTools (model self)
       ∧ has (model_capabilities self) TOOL_USE = false ∧ truthy tc = true)
    ∨ (x = NoStreamingToolUse (model self)
       ∧ has (model_capabilities self) STREAMING_TOOL_USE = false
       ∧ bool_decide (is_Some cb) = true
       ∧ has (model_capabilities self) TOOL_USE = true ∧ truthy tc = true).
Proof.
  unfold prepared_warnings. cbn zeta. rewrite truthy_surviving.
  rewrite !elem_of_app.
  destruct (has (model_capabilities self) SYSTEM_PROMPTS),
           (has (model_capabilities self) DOCUMENT_CHAT),
           (has (model_capabilities self) TOOL_USE),
           (has (model_capabilities self) STREAMING_TOOL_USE),
           (truthy sp), (truthy tc), (bool_decide (is_Some cb));
    cbn [negb andb]; rewrite ?list_elem_of_singleton, ?elem_of_nil; intuition congruence.
Qed.

(** The document-chat warning depends on the capability alone: on input that
    passes validation it is logged exactly when [DOCUMENT_CHAT] is missing,
    whatever the messages hold. *)
Theorem document_chat_warning_iff (X : Externals) (self : AmazonBedrockConverseGenerator)
    (messages : MessagesArg) (cb0 : option Callback) (ic tc0 sp0 : value) (w : World) :
  valid_messages (heap w) messages = true →
  (NoDocumentChat (model self) ∈ emitted w (run X self messages cb0 ic tc0 sp0 w).2
   ↔ DOCUMENT_CHAT ∉ model_capabilities self).
Proof.
  intros Hv. rewrite run_valid_emitted by done.
  rewrite elem_of_prepared_warnings, <- has_false. intuition congruence.
Qed.

Lemma document_chat_warning_iff_witness :
  NoDocumentChat "amazon.titan-text-express-v1"
    ∈ emitted Example.world2
        (run Example.externals
           (Example.generator {[VISION; CONVERSE_STREAM]} Example.good_client VNone)
           (ListArg [1]) None (VDict []) VNone VNone Example.world2).2
  ↔ DOCUMENT_CHAT ∉ ({[VISION; CONVERSE_STREAM]} : gset ModelCapability).
Proof.
  refine (document_chat_warning_iff Example.externals
            (Example.generator {[VISION; CONVERSE_STREAM]} Example.good_client VNone)
            (ListArg [1]) None (VDict []) VNone VNone Example.world2 _).
  vm_compute. reflexivity.
Defined.

(** Step 4 and the request: on input that passes validation, the tools
    warning is logged exactly when a truthy tool configuration meets a model
    without [TOOL_USE]; the request carries a [toolConfig] entry exactly when
    a truthy tool configuration meets a model with [TOOL_USE], and the entry
    is then the configuration that was passed. *)
Theorem tool_config_gate (X : Externals) (self : AmazonBedrockConverseGenerator)
    (messages : MessagesArg) (cb0 : option Callback) (ic tc0 sp0 : value) (w : World) :
  valid_messages (heap w) messages = true →
  let after := (run X self messages cb0 ic tc0 sp0 w).2 in
  (NoTools (model self) ∈ emitted w after
   ↔ (TOOL_USE ∉ model_capabilities self) ∧ truthy tc0 = true)
  ∧ ∃ op request,
      calls after = calls w ++ [(op, request)]
      ∧ (dict_mem request "toolConfig" = true
         ↔ TOOL_USE ∈ model_capabilities self ∧ truthy tc0 = true)
      ∧ (dict_mem request "toolConfig" = true → dict_get request "toolConfig" = tc0).
Proof.
  intros Hv after. split.
  - unfold after. rewrite run_valid_emitted by done.
    rewrite elem_of_prepared_warnings, <- has_false. intuition congruence.
  - unfold after. rewrite run_valid_world by done. cbn [calls].
    eexists _, _. split; [reflexivity|].
    unfold prepared_request. rewrite truthy_surviving, <- has_true.
    unfold surviving.
    destruct (has (model_capabilities self) TOOL_USE), (truthy tc0); cbn; intuition congruence.
Qed.

Lemma tool_config_gate_witness :
  let self := Example.generator {[TOOL_USE; DOCUMENT_CHAT]} Example.good_client VNone in
  let after :=
    (run Example.externals self (ListArg [1]) None (VDict []) Example.some_tools VNone
         Example.world2).2 in
  (NoTools (model self) ∈ emitted Example.world2 after
   ↔ (TOOL_USE ∉ model_capabilities self) ∧ truthy Example.some_tools = true)
  ∧ ∃ op request,
      calls after = calls Example.world2 ++ [(op, request)]
      ∧ (dict_mem request "toolConfig" = true
         ↔ TOOL_USE ∈ model_capabilities self ∧ truthy Example.some_tools = true)
      ∧ (dict_mem request "toolConfig" = true
         → dict_get request "toolConfig" = Example.some_tools).
Proof.
  refine (tool_config_gate Example.externals
            (Example.generator {[TOOL_USE; DOCUMENT_CHAT]} Example.good_client VNone)
            (ListArg [1]) None (VDict []) Example.some_tools VNone Example.world2 _).
  vm_compute. reflexivity.
Defined.

(** Step 5 reads what step 4 left: on input that passes validation, the
    streaming-tool-use warning is logged exactly when [STREAMING_TOOL_USE] is
    missing, a callback is in effect, the tool configuration is truthy and
    the model has [TOOL_USE]; without [TOOL_USE] the configuration is already
    dropped and only the tools warning appears. *)
Theorem streaming_tool_use_warning_iff (X : Externals)
    (self : AmazonBedrockConverseGenerator) (messages : MessagesArg)
    (cb0 : option Callback) (ic tc0 sp0 : value) (w : World) :
  valid_messages (heap w) messages = true →
  (NoStreamingToolUse (model self) ∈ emitted w (run X self messages cb0 ic tc0 sp0 w).2
   ↔ (STREAMING_TOOL_USE ∉ model_capabilities self)
     ∧ is_Some (callback_or cb0 (streaming_callback self))
     ∧ TOOL_USE ∈ model_capabilities self
     ∧ truthy tc0 = true).
Proof.
  intros Hv. rewrite run_valid_emitted by done.
  rewrite elem_of_prepared_warnings, <- has_false, <- has_true, bool_decide_eq_true.
  intuition congruence.
Qed.

Lemma streaming_tool_use_warning_iff_witness :
  let self := Example.generator {[TOOL_USE; CONVERSE_STREAM]} Example.good_client VNone in
  NoStreamingToolUse (model self)
    ∈ emitted Example.world2
        (run Example.externals self (ListArg [1]) (Some Example.print_chunk) (VDict [])
             Example.some_tools VNone Example.world2).2
  ↔ (STREAMING_TOOL_USE ∉ model_capabilities self)
    ∧ is_Some (callback_or (Some Example.print_chunk) (streaming_callback self))
    ∧ TOOL_USE ∈ model_capabilities self
    ∧ truthy Example.some_tools = true.
Proof.
  refine (streaming_tool_use_warning_iff Example.externals
            (Example.generator {[TOOL_USE; CONVERSE_STREAM]} Example.good_client VNone)
            (ListArg [1]) (Some Example.print_chunk) (VDict []) Example.some_tools VNone
            Example.world2 _).
  vm_compute. reflexivity.
Defined.

(** Whatever the input, what a run logs is a selection, in this order and
    each at most once, of the system-prompt, document-chat, tools and
    streaming-tool-use warnings for the generator's model. *)
Theorem warnings_in_fixed_order (X : Externals) (self : AmazonBedrockConverseGenerator)
    (messages : MessagesArg) (cb0 : option Callback) (ic tc0 sp0 : value) (w : World) :
  emitted w (run X self messages cb0 ic tc0 sp0 w).2
  `sublist_of` [NoSystemPrompts (model self); NoDocumentChat (model self);
                NoTools (model self); NoStreamingToolUse (model self)].
Proof.
  destruct (valid_messages (heap w) messages) eqn:Hv.
  - rewrite run_valid_emitted by done. unfold prepared_warnings. cbn zeta.
    repeat case_match; simpl;
      repeat first [apply sublist_nil | apply sublist_skip | apply sublist_cons].
  - rewrite (run_invalid X) by done. cbn [snd].
    rewrite (emitted_app w w []) by (by rewrite app_nil_r). apply sublist_nil_l.
Qed.

(** A model that has [SYSTEM_PROMPTS], [VISION], [DOCUMENT_CHAT], [TOOL_USE]
    and [STREAMING_TOOL_USE] is served silently: on input that passes
    validation nothing is logged and the store is left as it was. *)
Theorem capable_model_runs_silently (X : Externals) (self : AmazonBedrockConverseGenerator)
    (messages : MessagesArg) (cb0 : option Callback) (ic tc0 sp0 : value) (w : World) :
  valid_messages (heap w) messages = true →
  {[SYSTEM_PROMPTS; VISION; DOCUMENT_CHAT; TOOL_USE; STREAMING_TOOL_USE]}
    ⊆ model_capabilities self →
  let after := (run X self messages cb0 ic tc0 sp0 w).2 in
  log after = log w ∧ heap after = heap w.
Proof.
  intros Hv Hcaps after. unfold after. rewrite run_valid_world by done. cbn [log heap].
  unfold prepared_warnings, prepared_heap. cbn zeta.
  rewrite !(proj2 (has_true _ _)) by set_solver. cbn [negb andb app].
  by rewrite app_nil_r.
Qed.

Lemma capable_model_runs_silently_witness :
  let after :=
    (run Example.externals
         (Example.generator Example.all_capabilities Example.good_client Example.be_brief)
         (ListArg [0; 1]) (Some Example.print_chunk) (VDict []) Example.some_tools
         Example.be_brief Example.world2).2 in
  log after = log Example.world2 ∧ heap after = heap Example.world2.
Proof.
  refine (capable_model_runs_silently Example.externals
            (Example.generator Example.all_capabilities Example.good_client Example.be_brief)
            (ListArg [0; 1]) (Some Example.print_chunk) (VDict []) Example.some_tools
            Example.be_brief Example.world2 _ _).
  - vm_compute. reflexivity.
  - apply (bool_decide_unpack _). vm_compute. exact I.
Defined.

(** ** The store *)

Lemma dom_strip_all (ms : list loc) (h : gmap loc ConverseMessage) :
  dom (strip_all ms h) = dom h.
Proof.
  revert h. induction ms as [|l ms IH]; intros h; [done|].
  rewrite strip_all_cons, IH. apply dom_alter_L.
Qed.

Lemma strip_all_lookup (ms : list loc) (h : gmap loc ConverseMessage) (l : loc) :
  strip_all ms h !! l = if decide (l ∈ ms) then strip <$> h !! l else h !! l.
Proof.
  case_decide; [by apply strip_all_lookup_in|by apply strip_all_lookup_notin].
Qed.

Lemma strip_all_idemp (ms : list loc) (h : gmap loc ConverseMessage) :
  strip_all ms (strip_all ms h) = strip_all ms h.
Proof.
  apply map_eq. intros l. rewrite !strip_all_lookup.
  case_decide; [|done]. destruct (h !! l) as [msg|]; cbn; [|done].
  by rewrite strip_idemp.
Qed.

Lemma prepared_heap_idemp self ms h :
  prepared_heap self ms (prepared_heap self ms h) = prepared_heap self ms h.
Proof.
  unfold prepared_heap. destruct (has (model_capabilities self) VISION); [done|].
  apply strip_all_idemp.
Qed.

Lemma prepared_heap_is_Some self ms h l :
  is_Some (prepared_heap self ms h !! l) ↔ is_Some (h !! l).
Proof.
  unfold prepared_heap. destruct (has (model_capabilities self) VISION); [done|].
  rewrite strip_all_lookup. case_decide; [|done]. by rewrite fmap_is_Some.
Qed.

Lemma valid_messages_prepared self messages h :
  valid_messages (prepared_heap self (elements messages) h) messages = valid_messages h messages.
Proof.
  unfold valid_messages. f_equal.
  generalize (elements messages) at 2 3. intros ms.
  induction ms as [|l ms IH]; [done|].
  cbn [forallb]. rewrite IH. f_equal. unfold isinstance_ConverseMessage.
  apply bool_decide_ext, prepared_heap_is_Some.
Qed.

(** Step 2 rewrites the listed messages where they are: for a model without
    [VISION] and input that passes validation, the store holds the same
    objects as before; a listed message keeps its role and its content without
    the image blocks, the other items in their order; an object that is not
    in the list is untouched.  A message listed twice is treated like one
    listed once. *)
Theorem vision_filter_in_place (X : Externals) (self : AmazonBedrockConverseGenerator)
    (messages : MessagesArg) (cb0 : option Callback) (ic tc0 sp0 : value) (w : World) :
  valid_messages (heap w) messages = true →
  VISION ∉ model_capabilities self →
  let after := (run X self messages cb0 ic tc0 sp0 w).2 in
  dom (heap after) = dom (heap w)
  ∧ (∀ l msg, l ∈ elements messages → heap w !! l = Some msg →
       heap after !! l =
       Some {| role := role msg;
               content := List.filter (λ item, negb (is_ImageBlock item)) (content msg) |})
  ∧ (∀ l, l ∉ elements messages → heap after !! l = heap w !! l).
Proof.
  intros Hv Hno after. unfold after. rewrite run_valid_world by done. cbn [heap].
  unfold prepared_heap. rewrite (proj2 (has_false _ _)) by done.
  split; [apply dom_strip_all|]. split.
  - intros l msg Hin Hl. rewrite strip_all_lookup_in by done. by rewrite Hl.
  - intros l Hnin. by apply strip_all_lookup_notin.
Qed.

Lemma vision_filter_in_place_witness :
  let after :=
    (run Example.externals (Example.generator {[DOCUMENT_CHAT]} Example.good_client VNone)
         (ListArg [0; 1; 0]) None (VDict []) VNone VNone Example.world2).2 in
  dom (heap after) = dom (heap Example.world2)
  ∧ (∀ l msg, l ∈ [0; 1; 0] → heap Example.world2 !! l = Some msg →
       heap after !! l =
       Some {| role := role msg;
               content := List.filter (λ item, negb (is_ImageBlock item)) (content msg) |})
  ∧ (∀ l, l ∉ [0; 1; 0] → heap after !! l = heap Example.world2 !! l).
Proof.
  refine (vision_filter_in_place Example.externals
            (Example.generator {[DOCUMENT_CHAT]} Example.good_client VNone)
            (ListArg [0; 1; 0]) None (VDict []) VNone VNone Example.world2 _ _).
  - vm_compute. reflexivity.
  - apply (bool_decide_unpack _). vm_compute. exact I.
Defined.

Lemma run_text_only_unaffected_witness :
  heap (run Example.externals (Example.generator {[DOCUMENT_CHAT]} Example.good_client VNone)
            (ListArg [0; 1]) None (VDict []) VNone VNone Example.world2).2 !! 1
  = Some {| role := ASSISTANT; content := [TextItem "A cat"] |}.
Proof.
  refine (run_text_only_unaffected Example.externals
            (Example.generator {[DOCUMENT_CHAT]} Example.good_client VNone)
            (ListArg [0; 1]) None (VDict []) VNone VNone Example.world2 1
            {| role := ASSISTANT; content := [TextItem "A cat"] |} _ _ _ _).
  - vm_compute. reflexivity.
  - apply (bool_decide_unpack _). vm_compute. exact I.
  - vm_compute. reflexivity.
  - reflexivity.
Defined.

(** Running again with the same arguments finds nothing left to filter: the
    input still passes validation, the store does not change any more, and
    the request and the warnings are those of the first run. *)
Theorem second_run_changes_nothing (X : Externals) (self : AmazonBedrockConverseGenerator)
    (messages : MessagesArg) (cb0 : option Callback) (ic tc0 sp0 : value) (w : World) :
  valid_messages (heap w) messages = true →
  let first := (run X self messages cb0 ic tc0 sp0 w).2 in
  let second := (run X self messages cb0 ic tc0 sp0 first).2 in
  valid_messages (heap first) messages = true
  ∧ heap second = heap first
  ∧ (∃ op request,
       calls first = calls w ++ [(op, request)]
       ∧ calls second = calls first ++ [(op, request)])
  ∧ emitted first second = emitted w first.
Proof.
  intros Hv first second.
  assert (Hfirst : first =
    {| heap := prepared_heap self (elements messages) (heap w);
       log := log w ++ prepared_warnings self (callback_or cb0 (streaming_callback self))
                         (py_or sp0 (system_prompt self)) tc0;
       calls := calls w ++ [(selected self (callback_or cb0 (streaming_callback self)),
                             prepared_request X self (elements messages) (heap w) ic tc0)] |}).
  { unfold first. by rewrite run_valid_world by done. }
  assert (Hv1 : valid_messages (heap first) messages = true).
  { rewrite Hfirst. cbn [heap]. by rewrite valid_messages_prepared. }
  split; [done|].
  assert (Hsecond : heap second = heap first
                    ∧ calls second = calls first
                        ++ [(selected self (callback_or cb0 (streaming_callback self)),
                             prepared_request X self (elements messages) (heap w) ic tc0)]
                    ∧ emitted first second = emitted w first).
  { unfold second. rewrite run_valid_world by done. cbn [heap calls].
    rewrite (emitted_app first _ (prepared_warnings self
               (callback_or cb0 (streaming_callback self))
               (py_or sp0 (system_prompt self)) tc0)) by done.
    rewrite (emitted_app w first (prepared_warnings self
               (callback_or cb0 (streaming_callback self))
               (py_or sp0 (system_prompt self)) tc0)) by (by rewrite Hfirst).
    rewrite Hfirst. cbn [heap calls]. rewrite prepared_heap_idemp.
    split; [done|]. split; [|done].
    unfold prepared_request. by rewrite prepared_heap_idemp. }
  destruct Hsecond as (Hh & Hc & He).
  split; [done|]. split; [|done].
  eexists _, _. split; [|exact Hc]. by rewrite Hfirst.
Qed.

Lemma second_run_changes_nothing_witness :
  let self := Example.generator {[DOCUMENT_CHAT]} Example.good_client Example.be_brief in
  let first :=
    (run Example.externals self (ListArg [0; 1]) None (VDict []) Example.some_tools VNone
         Example.world2).2 in
  let second :=
    (run Example.externals self (ListArg [0; 1]) None (VDict []) Example.some_tools VNone
         first).2 in
  valid_messages (heap first) (ListArg [0; 1]) = true
  ∧ heap second = heap first
  ∧ (∃ op request,
       calls first = calls Example.world2 ++ [(op, request)]
       ∧ calls second = calls first ++ [(op, request)])
  ∧ emitted first second = emitted Example.world2 first.
Proof.
  refine (second_run_changes_nothing Example.externals
            (Example.generator {[DOCUMENT_CHAT]} Example.good_client Example.be_brief)
            (ListArg [0; 1]) None (VDict []) Example.some_tools VNone Example.world2 _).
  vm_compute. reflexivity.
Defined.

(** ** The messages of the request *)

Lemma to_dicts_Forall2 (to_dict : ConverseMessage → value)
    (h : gmap loc ConverseMessage) (ms : list loc) :
  Forall (λ l, is_Some (h !! l)) ms →
  Forall2 (λ l d, ∃ msg, h !! l = Some msg ∧ d = to_dict msg) ms (to_dicts to_dict h ms).
Proof.
  induction 1 as [|l ms [msg Hl] _ IH]; [constructor|].
  unfold to_dicts. cbn [omap list_omap]. rewrite Hl. cbn. constructor; [eauto|exact IH].
Qed.

(** The [messages] entry of the request has one dictionary for each element
    of the list that was passed, in the same order (an object listed twice
    appears twice), and each is [to_dict] of the message as the run left it. *)
Theorem request_lists_every_message (X : Externals) (self : AmazonBedrockConverseGenerator)
    (messages : MessagesArg) (cb0 : option Callback) (ic tc0 sp0 : value) (w : World) :
  valid_messages (heap w) messages = true →
  let after := (run X self messages cb0 ic tc0 sp0 w).2 in
  ∃ op request dicts,
    calls after = calls w ++ [(op, request)]
    ∧ dict_get request "messages" = VList dicts
    ∧ Forall2 (λ l d, ∃ msg, heap after !! l = Some msg ∧ d = ConverseMessage_to_dict X msg)
              (elements messages) dicts.
Proof.
  intros Hv after. unfold after. rewrite run_valid_world by done. cbn [calls heap].
  eexists _, _, _. split; [reflexivity|]. split; [reflexivity|].
  apply to_dicts_Forall2. apply Forall_forall. intros l Hin.
  apply prepared_heap_is_Some.
  unfold valid_messages in Hv. apply andb_true_iff in Hv as [_ Hall].
  rewrite forallb_forall in Hall. apply list_elem_of_In, Hall in Hin.
  by apply bool_decide_eq_true in Hin.
Qed.

Lemma request_lists_every_message_witness :
  let after :=
    (run Example.externals (Example.generator {[DOCUMENT_CHAT]} Example.good_client VNone)
         (ListArg [1; 0; 1]) None (VDict []) VNone VNone Example.world2).2 in
  ∃ op request dicts,
    calls after = calls Example.world2 ++ [(op, request)]
    ∧ dict_get request "messages" = VList dicts
    ∧ Forall2 (λ l d, ∃ msg, heap after !! l = Some msg ∧ d = Example.message_to_dict msg)
              [1; 0; 1] dicts.
Proof.
  refine (request_lists_every_message Example.externals
            (Example.generator {[DOCUMENT_CHAT]} Example.good_client VNone)
            (ListArg [1; 0; 1]) None (VDict []) VNone VNone Example.world2 _).
  vm_compute. reflexivity.
Defined.

(** ** Outcomes of the two paths *)

Lemma other_failure_propagates_witness :
  (run Example.externals (Example.generator {[DOCUMENT_CHAT]} Example.unreachable_client VNone)
       (ListArg [1]) None (VDict []) VNone VNone Example.world2).1
  = Raise (OtherError "EndpointConnectionError" "Could not connect to the endpoint URL").
Proof.
  refine (other_failure_propagates Example.externals
            (Example.generator {[DOCUMENT_CHAT]} Example.unreachable_client VNone)
            (ListArg [1]) None (VDict []) VNone VNone Example.world2
            (OtherError "EndpointConnectionError" "Could not connect to the endpoint URL")
            _ _ _).
  - vm_compute. reflexivity.
  - vm_compute. reflexivity.
  - reflexivity.
Defined.

Section Outcomes.
Context (X : Externals).

Lemma dispatch_invoke_translated self cb request w :
  (dispatch X self cb request w).1 =
  match (invoke X self cb request w).1 with
  | Return (message, metadata) => Return (normalize self message metadata)
  | Raise e => Raise (translated self e)
  end.
Proof.
  rewrite dispatch_invoke. unfold translated.
  destruct (invoke X self cb request w).1 as [[m md]|e]; [done|].
  by destruct (is_ClientError e).
Qed.

Lemma run_streaming self messages cb0 ic tc0 sp0 w callback response :
  valid_messages (heap w) messages = true →
  callback_or cb0 (streaming_callback self) = Some callback →
  CONVERSE_STREAM ∈ model_capabilities self →
  converse_stream (client self) (prepared_request X self (elements messages) (heap w) ic tc0)
    = Return response →
  (run X self messages cb0 ic tc0 sp0 w).1 =
  match get_stream_message X (dict_get response "stream") callback with
  | Return (message, metadata) => Return (normalize self message metadata)
  | Raise e => Raise (translated self e)
  end.
Proof.
  intros Hv Hcb Hcs Hresp. rewrite (run_valid X) by done.
  rewrite dispatch_invoke_translated, Hcb. unfold invoke.
  rewrite (proj2 (has_true _ _)) by done.
  unfold streaming_path, call, lift, mbind, M_bind. rewrite Hresp. cbn [fst].
  by destruct (get_stream_message X (dict_get response "stream") callback) as [[m md]|e].
Qed.

Lemma run_buffered self messages cb0 ic tc0 sp0 w response output :
  valid_messages (heap w) messages = true →
  selected self (callback_or cb0 (streaming_callback self)) = Converse →
  converse (client self) (prepared_request X self (elements messages) (heap w) ic tc0)
    = Return response →
  dict_get response "output" = VDict output →
  is_None (dict_get output "message") = false →
  (run X self messages cb0 ic tc0 sp0 w).1 =
  match ConverseMessage_from_dict X (dict_get output "message") with
  | Return message => Return (normalize self message response)
  | Raise e => Raise (translated self e)
  end.
Proof.
  intros Hv Hsel Hresp Hout Hmsg. rewrite (run_valid X) by done.
  rewrite dispatch_invoke_translated, invoke_buffered by done.
  unfold buffered_path, call, lift, mbind, M_bind, mret, M_ret. rewrite Hresp.
  cbn [fst snd]. rewrite Hout, Hmsg.
  by destruct (ConverseMessage_from_dict X (dict_get output "message")).
Qed.

End Outcomes.

(** On the streaming path the result is assembled from what
    [get_stream_message] returns for [response.get("stream")] and the callback
    in effect: the message as it is, usage, metrics and stop reason read from
    the metadata, and the trace only with [GUARDRAILS]. *)
Theorem streaming_result (X : Externals) (self : AmazonBedrockConverseGenerator)
    (messages : MessagesArg) (cb0 : option Callback) (ic tc0 sp0 : value) (w : World)
    (callback : Callback) (response : dict) (reply : ConverseMessage) (metadata : dict) :
  valid_messages (heap w) messages = true →
  callback_or cb0 (streaming_callback self) = Some callback →
  CONVERSE_STREAM ∈ model_capabilities self →
  converse_stream (client self) (prepared_request X self (elements messages) (heap w) ic tc0)
    = Return response →
  get_stream_message X (dict_get response "stream") callback = Return (reply, metadata) →
  (run X self messages cb0 ic tc0 sp0 w).1 =
  Return {| message := reply;
            usage := dict_get metadata "usage";
            metrics := dict_get metadata "metrics";
            guardrail_trace :=
              if bool_decide (GUARDRAILS ∈ model_capabilities self)
              then dict_get metadata "trace" else VNone;
            stop_reason := dict_get metadata "stopReason" |}.
Proof.
  intros Hv Hcb Hcs Hresp Hget.
  rewrite (run_streaming X self messages cb0 ic tc0 sp0 w callback response) by done.
  by rewrite Hget.
Qed.

Lemma streaming_result_witness :
  (run Example.externals
       (Example.generator {[CONVERSE_STREAM; GUARDRAILS; DOCUMENT_CHAT]} Example.good_client VNone)
       (ListArg [1]) (Some Example.print_chunk) (VDict []) VNone VNone Example.world2).1 =
  Return {| message := {| role := ASSISTANT; content := [TextItem "Hello"] |};
            usage := VDict [("inputTokens", VInt 3)];
            metrics := VNone;
            guardrail_trace := VDict [("guardrail", VStr "intervened")];
            stop_reason := VStr "end_turn" |}.
Proof.
  refine (streaming_result Example.externals
            (Example.generator {[CONVERSE_STREAM; GUARDRAILS; DOCUMENT_CHAT]}
               Example.good_client VNone)
            (ListArg [1]) (Some Example.print_chunk) (VDict []) VNone VNone Example.world2
            Example.print_chunk Example.good_stream
            {| role := ASSISTANT; content := [TextItem "Hello"] |}
            [("usage", VDict [("inputTokens", VInt 3)]);
             ("trace", VDict [("guardrail", VStr "intervened")]);
             ("stopReason", VStr "end_turn")] _ _ _ _ _).
  - vm_compute. reflexivity.
  - reflexivity.
  - apply (bool_decide_unpack _). vm_compute. exact I.
  - reflexivity.
  - reflexivity.
Defined.

(** A failure while the stream is consumed is handled like a failure of the
    transport call, since [get_stream_message] runs inside the same [try]: a
    [ClientError] comes out as [AmazonBedrockInferenceError] with the model in
    its message, any other exception as it is. *)
Theorem stream_consumption_failure (X : Externals) (self : AmazonBedrockConverseGenerator)
    (messages : MessagesArg) (cb0 : option Callback) (ic tc0 sp0 : value) (w : World)
    (callback : Callback) (response : dict) (e : Exc) :
  valid_messages (heap w) messages = true →
  callback_or cb0 (streaming_callback self) = Some callback →
  CONVERSE_STREAM ∈ model_capabilities self →
  converse_stream (client self) (prepared_request X self (elements messages) (heap w) ic tc0)
    = Return response →
  get_stream_message X (dict_get response "stream") callback = Raise e →
  (run X self messages cb0 ic tc0 sp0 w).1 =
  Raise (if is_ClientError e
         then AmazonBedrockInferenceError
                ("Could not run inference on Amazon Bedrock model " +:+ model self
                 +:+ " due to: " +:+ exc_str e) e
         else e).
Proof.
  intros Hv Hcb Hcs Hresp Hget.
  rewrite (run_streaming X self messages cb0 ic tc0 sp0 w callback response) by done.
  by rewrite Hget.
Qed.

Lemma stream_consumption_failure_witness :
  (run Example.broken_stream
       (Example.generator {[CONVERSE_STREAM; DOCUMENT_CHAT]} Example.good_client VNone)
       (ListArg [1]) (Some Example.print_chunk) (VDict []) VNone VNone Example.world2).1 =
  Raise (AmazonBedrockInferenceError
           ("Could not run inference on Amazon Bedrock model " +:+ "amazon.titan-text-express-v1"
            +:+ " due to: " +:+ "ModelStreamErrorException")
           (ClientError "ModelStreamErrorException")).
Proof.
  refine (stream_consumption_failure Example.broken_stream
            (Example.generator {[CONVERSE_STREAM; DOCUMENT_CHAT]} Example.good_client VNone)
            (ListArg [1]) (Some Example.print_chunk) (VDict []) VNone VNone Example.world2
            Example.print_chunk Example.good_stream (ClientError "ModelStreamErrorException")
            _ _ _ _ _).
  - vm_compute. reflexivity.
  - reflexivity.
  - apply (bool_decide_unpack _). vm_compute. exact I.
  - reflexivity.
  - reflexivity.
Defined.

(** On the buffered path, a response whose ["output"] holds a ["message"]
    that the codec accepts gives the result: the decoded message, and usage,
    metrics, stop reason (and the trace, with [GUARDRAILS]) read from the top
    level of the response. *)
Theorem buffered_result (X : Externals) (self : AmazonBedrockConverseGenerator)
    (messages : MessagesArg) (cb0 : option Callback) (ic tc0 sp0 : value) (w : World)
    (response output : dict) (reply : ConverseMessage) :
  valid_messages (heap w) messages = true →
  selected self (callback_or cb0 (streaming_callback self)) = Converse →
  converse (client self) (prepared_request X self (elements messages) (heap w) ic tc0)
    = Return response →
  dict_get response "output" = VDict output →
  is_None (dict_get output "message") = false →
  ConverseMessage_from_dict X (dict_get output "message") = Return reply →
  (run X self messages cb0 ic tc0 sp0 w).1 =
  Return {| message := reply;
            usage := dict_get response "usage";
            metrics := dict_get response "metrics";
            guardrail_trace :=
              if bool_decide (GUARDRAILS ∈ model_capabilities self)
              then dict_get response "trace" else VNone;
            stop_reason := dict_get response "stopReason" |}.
Proof.
  intros Hv Hsel Hresp Hout Hmsg Hreply.
  rewrite (run_buffered X self messages cb0 ic tc0 sp0 w response output) by done.
  by rewrite Hreply.
Qed.

Lemma buffered_result_witness :
  (run Example.externals
       (Example.generator {[GUARDRAILS; DOCUMENT_CHAT]} Example.good_client VNone)
       (ListArg [1]) (Some Example.print_chunk) (VDict []) VNone VNone Example.world2).1 =
  Return {| message := {| role := ASSISTANT; content := [TextItem "Hello"] |};
            usage := VDict [("inputTokens", VInt 3); ("outputTokens", VInt 1)];
            metrics := VDict [("latencyMs", VInt 120)];
            guardrail_trace := VDict [("guardrail", VStr "intervened")];
            stop_reason := VStr "end_turn" |}.
Proof.
  refine (buffered_result Example.externals
            (Example.generator {[GUARDRAILS; DOCUMENT_CHAT]} Example.good_client VNone)
            (ListArg [1]) (Some Example.print_chunk) (VDict []) VNone VNone Example.world2
            Example.good_response [("message", VDict [("text", VStr "Hello")])]
            {| role := ASSISTANT; content := [TextItem "Hello"] |} _ _ _ _ _ _).
  - vm_compute. reflexivity.
  - vm_compute. reflexivity.
  - reflexivity.
  - reflexivity.
  - reflexivity.
  - reflexivity.
Defined.

(** A message that the codec rejects fails the run with the codec's own
    exception, since [ConverseMessage.from_dict] runs inside the [try] and
    only a [ClientError] is translated. *)
Theorem buffered_codec_failure (X : Externals) (self : AmazonBedrockConverseGenerator)
    (messages : MessagesArg) (cb0 : option Callback) (ic tc0 sp0 : value) (w : World)
    (response output : dict) (e : Exc) :
  valid_messages (heap w) messages = true →
  selected self (callback_or cb0 (streaming_callback self)) = Converse →
  converse (client self) (prepared_request X self (elements messages) (heap w) ic tc0)
    = Return response →
  dict_get response "output" = VDict output →
  is_None (dict_get output "message") = false →
  ConverseMessage_from_dict X (dict_get output "message") = Raise e →
  is_ClientError e = false →
  (run X self messages cb0 ic tc0 sp0 w).1 = Raise e.
Proof.
  intros Hv Hsel Hresp Hout Hmsg Hreply He.
  rewrite (run_buffered X self messages cb0 ic tc0 sp0 w response output) by done.
  rewrite Hreply. unfold translated. by rewrite He.
Qed.

Lemma buffered_codec_failure_witness :
  (run Example.externals (Example.generator {[DOCUMENT_CHAT]} Example.odd_client VNone)
       (ListArg [1]) None (VDict []) VNone VNone Example.world2).1
  = Raise (ValueError "unsupported content").
Proof.
  refine (buffered_codec_failure Example.externals
            (Example.generator {[DOCUMENT_CHAT]} Example.odd_client VNone)
            (ListArg [1]) None (VDict []) VNone VNone Example.world2
            [("output", VDict [("message", VDict [("role", VStr "assistant")])])]
            [("message", VDict [("role", VStr "assistant")])]
            (ValueError "unsupported content") _ _ _ _ _ _ _).
  - vm_compute. reflexivity.
  - vm_compute. reflexivity.
  - reflexivity.
  - reflexivity.
  - reflexivity.
  - reflexivity.
  - reflexivity.
Defined.

(** ** What the constructor's settings do at run time *)

Lemma dispatch_buffered (X : Externals) self cb request :
  selected self cb = Converse →
  dispatch X self cb request = dispatch X self None request.
Proof.
  intros Hsel. unfold dispatch.
  rewrite (invoke_buffered X self cb) by done.
  by rewrite (invoke_buffered X self None) by done.
Qed.

(** For a model without [CONVERSE_STREAM] a streaming callback is not used:
    the run has the outcome, the store and the transport invocation, a single
    [converse], of a run without any callback.  (The callback still counts
    for the streaming-tool-use warning of step 5.) *)
Theorem callback_unused_without_converse_stream (X : Externals)
    (self : AmazonBedrockConverseGenerator) (messages : MessagesArg)
    (cb0 : option Callback) (ic tc0 sp0 : value) (w : World) :
  valid_messages (heap w) messages = true →
  CONVERSE_STREAM ∉ model_capabilities self →
  let with_callback := run X self messages cb0 ic tc0 sp0 w in
  let without :=
    run X (with_streaming_callback self None) messages None ic tc0 sp0 w in
  with_callback.1 = without.1
  ∧ heap with_callback.2 = heap without.2
  ∧ calls with_callback.2 = calls without.2
  ∧ ∃ request, calls with_callback.2 = calls w ++ [(Converse, request)].
Proof.
  intros Hv Hno with_callback without.
  assert (Hsel : ∀ cb, selected self cb = Converse).
  { intros cb. unfold selected. rewrite (proj2 (has_false _ _)) by done.
    by rewrite andb_false_r. }
  split; [|split; [|split]].
  - unfold with_callback, without. rewrite !(run_valid X) by done.
    rewrite (dispatch_buffered X self _ _ (Hsel _)).
    apply (dispatch_outcome X self).
  - unfold with_callback, without.
    rewrite (run_valid_world X self),
      (run_valid_world X (with_streaming_callback self None)) by done.
    reflexivity.
  - unfold with_callback, without.
    rewrite (run_valid_world X self),
      (run_valid_world X (with_streaming_callback self None)) by done.
    cbn [calls]. do 2 f_equal. f_equal. apply Hsel.
  - unfold with_callback. rewrite run_valid_world by done. cbn [calls].
    rewrite Hsel. eauto.
Qed.

Lemma callback_unused_without_converse_stream_witness :
  let self := Example.generator {[DOCUMENT_CHAT; TOOL_USE]} Example.good_client VNone in
  let with_callback :=
    run Example.externals self (ListArg [0; 1]) (Some Example.print_chunk) (VDict [])
        Example.some_tools VNone Example.world2 in
  let without :=
    run Example.externals (with_streaming_callback self None) (ListArg [0; 1]) None (VDict [])
        Example.some_tools VNone Example.world2 in
  with_callback.1 = without.1
  ∧ heap with_callback.2 = heap without.2
  ∧ calls with_callback.2 = calls without.2
  ∧ ∃ request, calls with_callback.2 = calls Example.world2 ++ [(Converse, request)].
Proof.
  refine (callback_unused_without_converse_stream Example.externals
            (Example.generator {[DOCUMENT_CHAT; TOOL_USE]} Example.good_client VNone)
            (ListArg [0; 1]) (Some Example.print_chunk) (VDict []) Example.some_tools VNone
            Example.world2 _ _).
  - vm_compute. reflexivity.
  - apply (bool_decide_unpack _). vm_compute. exact I.
Defined.

(** A callback passed to [run] replaces the one given to the constructor for
    that run: the run is the one of a generator constructed with the passed
    callback and called without one. *)
Theorem run_callback_takes_precedence (X : Externals)
    (self : AmazonBedrockConverseGenerator) (messages : MessagesArg)
    (constructed passed : Callback) (ic tc0 sp0 : value) (w : World) :
  run X (with_streaming_callback self (Some constructed)) messages (Some passed) ic tc0 sp0 w
  = run X (with_streaming_callback self (Some passed)) messages None ic tc0 sp0 w.
Proof. reflexivity. Qed.

(** The inference and tool configurations given to the constructor are never
    read by [run]: whatever they are, a run does the same, and on input that
    passes validation the [inferenceConfig] entry of the request is the
    configuration passed to [run]. *)
Theorem constructor_configs_unused (X : Externals)
    (self : AmazonBedrockConverseGenerator) (messages : MessagesArg)
    (cb0 : option Callback) (ic tc0 sp0 : value) (w : World) :
  valid_messages (heap w) messages = true →
  (∀ ic' tc', run X (with_configs self ic' tc') messages cb0 ic tc0 sp0 w
              = run X self messages cb0 ic tc0 sp0 w)
  ∧ ∃ op request,
      calls (run X self messages cb0 ic tc0 sp0 w).2 = calls w ++ [(op, request)]
      ∧ dict_get request "inferenceConfig" = ic.
Proof.
  intros Hv. split; [reflexivity|].
  rewrite run_valid_world by done. cbn [calls]. eexists _, _. split; reflexivity.
Qed.

Lemma constructor_configs_unused_witness :
  let self := Example.generator Example.all_capabilities Example.good_client VNone in
  (∀ ic' tc', run Example.externals (with_configs self ic' tc') (ListArg [1]) None
                  (VDict [("temperature", VInt 0)]) VNone VNone Example.world2
              = run Example.externals self (ListArg [1]) None
                  (VDict [("temperature", VInt 0)]) VNone VNone Example.world2)
  ∧ ∃ op request,
      calls (run Example.externals self (ListArg [1]) None
               (VDict [("temperature", VInt 0)]) VNone VNone Example.world2).2
      = calls Example.world2 ++ [(op, request)]
      ∧ dict_get request "inferenceConfig" = VDict [("temperature", VInt 0)].
Proof.
  refine (constructor_configs_unused Example.externals
            (Example.generator Example.all_capabilities Example.good_client VNone)
            (ListArg [1]) None (VDict [("temperature", VInt 0)]) VNone VNone
            Example.world2 _).
  vm_compute. reflexivity.
Defined.

(** ** Construction *)

Section Construction.
Context (X : Externals).

Lemma first_match_app pre rest name :
  Forall (λ entry, re_match X entry.1 name = false) pre →
  first_match X (pre ++ rest) name = first_match X rest name.
Proof.
  induction 1 as [|[pattern caps] pre Hno _ IH]; [done|].
  cbn in *. by rewrite Hno.
Qed.

Lemma first_match_None table name :
  first_match X table name = None ↔
  Forall (λ entry, re_match X entry.1 name = false) table.
Proof.
  induction table as [|[pattern caps] table IH]; cbn.
  - split; [constructor|done].
  - destruct (re_match X pattern name) eqn:Hm.
    + split; [done|]. intros Hall. apply Forall_cons in Hall as [Hno _].
      cbn in Hno. congruence.
    + rewrite IH. split; [by constructor|]. intros Hall. by apply Forall_cons in Hall as [_ ?].
Qed.

Lemma init_inv name k1 k2 k3 k4 k5 ic tc cb sp g :
  __init__ X name k1 k2 k3 k4 k5 ic tc cb sp = Return g →
  name ≠ ""
  ∧ (∃ key_id secret_key token region profile session,
       resolve_secret X k1 = Return key_id
       ∧ resolve_secret X k2 = Return secret_key
       ∧ resolve_secret X k3 = Return token
       ∧ resolve_secret X k4 = Return region
       ∧ resolve_secret X k5 = Return profile
       ∧ get_aws_session X key_id secret_key token region profile = Return session
       ∧ session_client session "bedrock-runtime" = Return (client g))
  ∧ first_match X (MODEL_CAPABILITIES X) name = Some (model_capabilities g)
  ∧ model g = name
  ∧ secrets g = [k1; k2; k3; k4; k5]
  ∧ inference_config g = ic ∧ tool_config g = tc
  ∧ streaming_callback g = cb ∧ system_prompt g = sp.
Proof.
  unfold __init__, _get_model_capabilities.
  destruct (String.eqb_spec name "") as [Heq|Hne]; [done|].
  unfold try_except, mbind, outcome_bind, mret, outcome_ret.
  destruct (resolve_secret X k1) as [key_id|] eqn:H1; [|done].
  destruct (resolve_secret X k2) as [secret_key|] eqn:H2; [|done].
  destruct (resolve_secret X k3) as [token|] eqn:H3; [|done].
  destruct (resolve_secret X k4) as [region|] eqn:H4; [|done].
  destruct (resolve_secret X k5) as [profile|] eqn:H5; [|done].
  destruct (get_aws_session X key_id secret_key token region profile) as [session|] eqn:Hs;
    [|done].
  destruct (session_client session "bedrock-runtime") as [c|] eqn:Hc; [|done].
  destruct (first_match X (MODEL_CAPABILITIES X) name) as [caps|] eqn:Hm; [|done].
  intros [= <-]. cbn. split; [done|]. split; [|done].
  by exists key_id, secret_key, token, region, profile, session.
Qed.

End Construction.

(** The constructor fails in two ways only: with the [ValueError] of line
    107 when the model name is empty, before anything else is tried, and with
    [AmazonBedrockConfigurationError] carrying the message about connecting
    to Amazon Bedrock for every failure inside the [try] block. *)
Theorem init_failure_kinds (X : Externals) (name : string)
    (k1 k2 k3 k4 k5 : option Secret) (ic tc : value) (cb : option Callback) (sp : value)
    (e : Exc) :
  __init__ X name k1 k2 k3 k4 k5 ic tc cb sp = Raise e →
  (name = "" ∧ e = ValueError "'model' cannot be None or empty string")
  ∨ (name ≠ "" ∧ ∃ cause, e = AmazonBedrockConfigurationError connect_msg cause).
Proof.
  unfold __init__. destruct (String.eqb_spec name "") as [Heq|Hne].
  - intros [= <-]. by left.
  - unfold try_except. case_match; [done|]. intros [= <-]. right. eauto.
Qed.

Lemma init_failure_kinds_witness :
  ("amazon.titan-text-express-v1" = ""
   ∧ AmazonBedrockConfigurationError connect_msg
       (ValueError "None of the following authentication environment variables are set")
     = ValueError "'model' cannot be None or empty string")
  ∨ ("amazon.titan-text-express-v1" ≠ ""
     ∧ ∃ cause,
         AmazonBedrockConfigurationError connect_msg
           (ValueError "None of the following authentication environment variables are set")
         = AmazonBedrockConfigurationError connect_msg cause).
Proof.
  refine (init_failure_kinds Example.externals "amazon.titan-text-express-v1"
            (Some (from_env_var ["AWS_ACCESS_KEY_ID"] true)) None None None None
            VNone VNone None VNone
            (AmazonBedrockConfigurationError connect_msg
               (ValueError "None of the following authentication environment variables are set"))
            _).
  vm_compute. reflexivity.
Defined.

(** A generator that the constructor returns holds the arguments as they
    were passed, the capability set of the first pattern that matches its
    model, and the ["bedrock-runtime"] client of the session obtained with the
    resolved secrets; its model name is not empty. *)
Theorem init_stores_parameters (X : Externals) (name : string)
    (k1 k2 k3 k4 k5 : option Secret) (ic tc : value) (cb : option Callback) (sp : value)
    (g : AmazonBedrockConverseGenerator) :
  __init__ X name k1 k2 k3 k4 k5 ic tc cb sp = Return g →
  name ≠ ""
  ∧ (∃ key_id secret_key token region profile session,
       resolve_secret X k1 = Return key_id
       ∧ resolve_secret X k2 = Return secret_key
       ∧ resolve_secret X k3 = Return token
       ∧ resolve_secret X k4 = Return region
       ∧ resolve_secret X k5 = Return profile
       ∧ get_aws_session X key_id secret_key token region profile = Return session
       ∧ session_client session "bedrock-runtime" = Return (client g))
  ∧ first_match X (MODEL_CAPABILITIES X) name = Some (model_capabilities g)
  ∧ model g = name
  ∧ secrets g = [k1; k2; k3; k4; k5]
  ∧ inference_config g = ic ∧ tool_config g = tc
  ∧ streaming_callback g = cb ∧ system_prompt g = sp.
Proof. apply init_inv. Qed.

Lemma init_stores_parameters_witness :
  let g := Example.generator {[DOCUMENT_CHAT; CONVERSE_STREAM]} Example.good_client VNone in
  "amazon.titan-text-express-v1" ≠ ""
  ∧ (∃ key_id secret_key token region profile session,
       resolve_secret Example.externals (Some (from_env_var ["AWS_ACCESS_KEY_ID"] false))
         = Return key_id
       ∧ resolve_secret Example.externals (Some (from_env_var ["AWS_SECRET_ACCESS_KEY"] false))
         = Return secret_key
       ∧ resolve_secret Example.externals (Some (from_env_var ["AWS_SESSION_TOKEN"] false))
         = Return token
       ∧ resolve_secret Example.externals (Some (from_env_var ["AWS_DEFAULT_REGION"] false))
         = Return region
       ∧ resolve_secret Example.externals (Some (from_env_var ["AWS_PROFILE"] false))
         = Return profile
       ∧ get_aws_session Example.externals key_id secret_key token region profile
         = Return session
       ∧ session_client session "bedrock-runtime" = Return (client g))
  ∧ first_match Example.externals (MODEL_CAPABILITIES Example.externals)
      "amazon.titan-text-express-v1" = Some (model_capabilities g)
  ∧ model g = "amazon.titan-text-express-v1"
  ∧ secrets g = [Some (from_env_var ["AWS_ACCESS_KEY_ID"] false);
                 Some (from_env_var ["AWS_SECRET_ACCESS_KEY"] false);
                 Some (from_env_var ["AWS_SESSION_TOKEN"] false);
                 Some (from_env_var ["AWS_DEFAULT_REGION"] false);
                 Some (from_env_var ["AWS_PROFILE"] false)]
  ∧ inference_config g = VNone ∧ tool_config g = VNone
  ∧ streaming_callback g = None ∧ system_prompt g = VNone.
Proof.
  refine (init_stores_parameters Example.externals "amazon.titan-text-express-v1"
            (Some (from_env_var ["AWS_ACCESS_KEY_ID"] false))
            (Some (from_env_var ["AWS_SECRET_ACCESS_KEY"] false))
            (Some (from_env_var ["AWS_SESSION_TOKEN"] false))
            (Some (from_env_var ["AWS_DEFAULT_REGION"] false))
            (Some (from_env_var ["AWS_PROFILE"] false))
            VNone VNone None VNone
            (Example.generator {[DOCUMENT_CHAT; CONVERSE_STREAM]} Example.good_client VNone) _).
  vm_compute. reflexivity.
Defined.

(** The capability table is searched in declaration order and the first
    pattern that matches decides: entries after it are not looked at, even if
    they match too. *)
Theorem first_matching_pattern_wins (X : Externals)
    (pre post : list (string * gset ModelCapability))
    (pattern : string) (caps : gset ModelCapability) (name : string) :
  MODEL_CAPABILITIES X = pre ++ (pattern, caps) :: post →
  Forall (λ entry, re_match X entry.1 name = false) pre →
  re_match X pattern name = true →
  _get_model_capabilities X name = Return caps.
Proof.
  intros Htable Hpre Hmatch. unfold _get_model_capabilities.
  rewrite Htable, first_match_app by done. cbn. by rewrite Hmatch.
Qed.

Lemma first_matching_pattern_wins_witness :
  _get_model_capabilities Example.overlapping "anthropic.claude-3-haiku"
  = Return {[SYSTEM_PROMPTS; CONVERSE_STREAM]}.
Proof.
  refine (first_matching_pattern_wins Example.overlapping
            [("amazon.titan-text", {[DOCUMENT_CHAT; CONVERSE_STREAM]})]
            [("anthropic.claude-3", Example.all_capabilities)]
            "anthropic.claude" {[SYSTEM_PROMPTS; CONVERSE_STREAM]}
            "anthropic.claude-3-haiku" _ _ _).
  - reflexivity.
  - repeat constructor.
  - reflexivity.
Defined.

(** [_get_model_capabilities] raises, and then the [ValueError] that names
    the model, exactly when no pattern of the table matches. *)
Theorem unsupported_model_iff (X : Externals) (name : string) :
  _get_model_capabilities X name = Raise (ValueError ("Unsupported model: " +:+ name))
  ↔ Forall (λ entry, re_match X entry.1 name = false) (MODEL_CAPABILITIES X).
Proof.
  rewrite <- first_match_None. unfold _get_model_capabilities.
  destruct (first_match X (MODEL_CAPABILITIES X) name); split; done.
Qed.

(** ** Serialization *)

Lemma strings_of_fmap (names : list string) : strings_of (VStr <$> names) = Some names.
Proof. induction names as [|n names IH]; cbn; [done|]. by rewrite IH. Qed.

Lemma Secret_from_dict_to_dict (names : list string) (strict : bool) :
  Secret_from_dict (VDict [("type", VStr "env_var");
                           ("env_vars", VList (VStr <$> names));
                           ("strict", VBool strict)])
  = Return (EnvVarSecret names strict).
Proof. cbn. by rewrite strings_of_fmap. Qed.

Lemma forallb_keys (params : kwargs) :
  forallb (λ kp, bool_decide (kp.1 ∈ parameter_names)) params
  = forallb (λ k, bool_decide (k ∈ parameter_names)) params.*1.
Proof. induction params as [|[k p] params IH]; cbn; [done|]. by rewrite IH. Qed.

Lemma keys_accepted :
  forallb (λ k, bool_decide (k ∈ parameter_names))
    ["aws_access_key_id"; "aws_secret_access_key"; "aws_session_token";
     "aws_region_name"; "aws_profile_name"; "model"; "streaming_callback";
     "inference_config"; "tool_config"; "system_prompt"] = true.
Proof. vm_compute. reflexivity. Qed.

Lemma written_keys_accepted :
  forallb (λ k, bool_decide (k ∈ parameter_names))
    ["aws_access_key_id"; "aws_secret_access_key"; "aws_session_token";
     "aws_region_name"; "aws_profile_name"; "model"; "streaming_callback"] = true.
Proof. vm_compute. reflexivity. Qed.

(** Case analysis on a secret while [to_dict] is unfolded: a token makes the
    serialization fail, which the hypothesis excludes. *)
Ltac secret_case k :=
  destruct k as [[?|? ?]|]; cbn [secret_to_dict_or_None Secret_to_dict]; [done| |].

Ltac read_back Hdes :=
  unfold from_dict, default_to_dict, serialize_callable;
  cbn -[__init__ Secret_from_dict construct truthy deserialize_secrets_inplace];
  try (cbn [truthy];
       match goal with
       | |- context [String.eqb (callback_name ?c) ""] =>
           destruct (String.eqb_spec (callback_name c) "") as [?|_]; [done|]
       end;
       cbn [negb]; unfold mbind, outcome_bind, mret, outcome_ret; rewrite Hdes);
  cbn -[__init__ Secret_from_dict construct];
  rewrite ?Secret_from_dict_to_dict;
  cbn -[__init__ construct class_name];
  rewrite String.eqb_refl;
  unfold construct; rewrite forallb_keys; cbn [fmap list_fmap fst].

(** Reading back what [to_dict] wrote is calling the constructor with the
    model, the secrets and the callback, and nothing for the rest. *)
Lemma from_dict_to_dict (X : Externals) self data :
  to_dict self = Return data →
  (∀ c, streaming_callback self = Some c →
        callback_name c ≠ "" ∧ deserialize_callable X (callback_name c) = Return c) →
  from_dict X data =
  __init__ X (model self) (aws_access_key_id self) (aws_secret_access_key self)
    (aws_session_token self) (aws_region_name self) (aws_profile_name self)
    VNone VNone (streaming_callback self) VNone.
Proof.
  destruct self as [m k1 k2 k3 k4 k5 cl ic tc cb sp caps].
  unfold to_dict, mbind, outcome_bind, mret, outcome_ret.
  cbn [model aws_access_key_id aws_secret_access_key aws_session_token aws_region_name
       aws_profile_name streaming_callback].
  secret_case k1; secret_case k2; secret_case k3; secret_case k4; secret_case k5.
  all: intros [= <-] Hcb.
  all: destruct cb as [c|]; [destruct (Hcb c eq_refl) as [Hname Hdes]|].
  all: read_back Hdes; rewrite written_keys_accepted; cbn -[__init__]; reflexivity.
Qed.

(** Whenever [to_dict] returns a dictionary, none of the five secrets is a
    token, and under each secret's key the dictionary holds [None] for a
    secret that is absent and the reference to its environment variables
    otherwise: a secret value is never written out. *)
Theorem to_dict_writes_no_token (self : AmazonBedrockConverseGenerator) (data : dict) :
  to_dict self = Return data →
  Forall (λ s, is_token s = false) (secrets self)
  ∧ ∃ init_parameters,
      dict_get data "init_parameters" = VDict init_parameters
      ∧ Forall2
          (λ key s,
             dict_get init_parameters key =
             match s with
             | Some (EnvVarSecret names strict) =>
                 VDict [("type", VStr "env_var");
                        ("env_vars", VList (VStr <$> names));
                        ("strict", VBool strict)]
             | _ => VNone
             end)
          secret_keys (secrets self).
Proof.
  destruct self as [m k1 k2 k3 k4 k5 cl ic tc cb sp caps].
  unfold to_dict, secrets, secret_keys, mbind, outcome_bind, mret, outcome_ret.
  cbn [model aws_access_key_id aws_secret_access_key aws_session_token aws_region_name
       aws_profile_name streaming_callback].
  secret_case k1; secret_case k2; secret_case k3; secret_case k4; secret_case k5.
  all: intros [= <-]; split; [repeat constructor|].
  all: eexists; split; [reflexivity|]; repeat constructor.
Qed.

Lemma to_dict_writes_no_token_witness :
  let self :=
    Example.generator {[DOCUMENT_CHAT; CONVERSE_STREAM]} Example.good_client Example.be_brief in
  Forall (λ s, is_token s = false) (secrets self)
  ∧ ∃ init_parameters,
      dict_get (default_to_dict Example.written) "init_parameters" = VDict init_parameters
      ∧ Forall2
          (λ key s,
             dict_get init_parameters key =
             match s with
             | Some (EnvVarSecret names strict) =>
                 VDict [("type", VStr "env_var");
                        ("env_vars", VList (VStr <$> names));
                        ("strict", VBool strict)]
             | _ => VNone
             end)
          secret_keys (secrets self).
Proof.
  refine (to_dict_writes_no_token
            (Example.generator {[DOCUMENT_CHAT; CONVERSE_STREAM]} Example.good_client
               Example.be_brief)
            (default_to_dict Example.written) _).
  vm_compute. reflexivity.
Defined.

(** What survives the round trip, for any generator: when [to_dict] succeeds,
    the callback can be imported under its name and [from_dict] returns a
    generator, that generator has the model, the five secrets and the
    callback of the original and the capability set of its model, while its
    inference configuration, tool configuration and system prompt are [None]
    whatever the original held. *)
Theorem roundtrip_preserved_parameters (X : Externals)
    (self : AmazonBedrockConverseGenerator) (data : dict)
    (back : AmazonBedrockConverseGenerator) :
  to_dict self = Return data →
  (∀ c, streaming_callback self = Some c →
        callback_name c ≠ "" ∧ deserialize_callable X (callback_name c) = Return c) →
  from_dict X data = Return back →
  model back = model self
  ∧ secrets back = secrets self
  ∧ streaming_callback back = streaming_callback self
  ∧ first_match X (MODEL_CAPABILITIES X) (model self) = Some (model_capabilities back)
  ∧ inference_config back = VNone
  ∧ tool_config back = VNone
  ∧ system_prompt back = VNone.
Proof.
  intros Hto Hcb Hfrom. rewrite (from_dict_to_dict X self data Hto Hcb) in Hfrom.
  apply init_inv in Hfrom.
  destruct Hfrom as (_ & _ & Hcaps & Hmodel & Hsecrets & Hic & Htc & Hcallback & Hsp).
  repeat split; assumption.
Qed.

Lemma roundtrip_preserved_parameters_witness :
  let self :=
    with_streaming_callback
      (Example.generator {[DOCUMENT_CHAT; CONVERSE_STREAM]} Example.good_client Example.be_brief)
      (Some Example.print_chunk) in
  let back :=
    with_streaming_callback
      (Example.generator {[DOCUMENT_CHAT; CONVERSE_STREAM]} Example.good_client VNone)
      (Some Example.print_chunk) in
  model back = model self
  ∧ secrets back = secrets self
  ∧ streaming_callback back = streaming_callback self
  ∧ first_match Example.externals (MODEL_CAPABILITIES Example.externals) (model self)
    = Some (model_capabilities back)
  ∧ inference_config back = VNone
  ∧ tool_config back = VNone
  ∧ system_prompt back = VNone.
Proof.
  refine (roundtrip_preserved_parameters Example.externals
            (with_streaming_callback
               (Example.generator {[DOCUMENT_CHAT; CONVERSE_STREAM]} Example.good_client
                  Example.be_brief)
               (Some Example.print_chunk))
            _
            (with_streaming_callback
               (Example.generator {[DOCUMENT_CHAT; CONVERSE_STREAM]} Example.good_client VNone)
               (Some Example.print_chunk))
            _ _ _).
  - vm_compute. reflexivity.
  - intros c [= <-]. split; [discriminate|reflexivity].
  - vm_compute. reflexivity.
Defined.

(** The loss is on the writing side: had the three missing parameters been
    written next to the seven that [to_dict] writes, [from_dict] would hand
    them to the constructor, as it does for every keyword it finds. *)
Theorem from_dict_reads_every_parameter (X : Externals)
    (self : AmazonBedrockConverseGenerator) (init_parameters : dict) (ic tc sp : value) :
  to_dict self = Return (default_to_dict init_parameters) →
  (∀ c, streaming_callback self = Some c →
        callback_name c ≠ "" ∧ deserialize_callable X (callback_name c) = Return c) →
  from_dict X (default_to_dict
                 (init_parameters ++ [("inference_config", ic); ("tool_config", tc);
                                      ("system_prompt", sp)]))
  = __init__ X (model self) (aws_access_key_id self) (aws_secret_access_key self)
      (aws_session_token self) (aws_region_name self) (aws_profile_name self)
      ic tc (streaming_callback self) sp.
Proof.
  destruct self as [m k1 k2 k3 k4 k5 cl ic0 tc0 cb sp0 caps].
  unfold to_dict, mbind, outcome_bind, mret, outcome_ret.
  cbn [model aws_access_key_id aws_secret_access_key aws_session_token aws_region_name
       aws_profile_name streaming_callback].
  secret_case k1; secret_case k2; secret_case k3; secret_case k4; secret_case k5.
  all: unfold default_to_dict at 1 2; intros [= <-] Hcb.
  all: destruct cb as [c|]; [destruct (Hcb c eq_refl) as [Hname Hdes]|].
  all: cbn [app].
  all: read_back Hdes; rewrite keys_accepted; cbn -[__init__]; reflexivity.
Qed.

Lemma from_dict_reads_every_parameter_witness :
  to_dict (Example.generator {[DOCUMENT_CHAT; CONVERSE_STREAM]} Example.good_client VNone)
  = Return (default_to_dict Example.written)
  ∧ from_dict Example.externals
      (default_to_dict
         (Example.written ++ [("inference_config", VDict [("maxTokens", VInt 512)]);
                              ("tool_config", Example.some_tools);
                              ("system_prompt", Example.be_brief)]))
    = __init__ Example.externals "amazon.titan-text-express-v1"
        (Some (from_env_var ["AWS_ACCESS_KEY_ID"] false))
        (Some (from_env_var ["AWS_SECRET_ACCESS_KEY"] false))
        (Some (from_env_var ["AWS_SESSION_TOKEN"] false))
        (Some (from_env_var ["AWS_DEFAULT_REGION"] false))
        (Some (from_env_var ["AWS_PROFILE"] false))
        (VDict [("maxTokens", VInt 512)]) Example.some_tools None Example.be_brief.
Proof.
  split; [vm_compute; reflexivity|].
  refine (from_dict_reads_every_parameter Example.externals
            (Example.generator {[DOCUMENT_CHAT; CONVERSE_STREAM]} Example.good_client VNone)
            Example.written (VDict [("maxTokens", VInt 512)]) Example.some_tools
            Example.be_brief _ _).
  - vm_compute. reflexivity.
  - intros c [=].
Defined.
